(** * Xtickr sticker maker: a shallow embedding of [app.py]

    The program is a Streamlit script: five stages (upload, crop,
    background removal, text overlay, export) run in sequence by [main].
    This file embeds the helper [opacity_to_255], the stages and [main], with
    the calls into Streamlit, Pillow, rembg, [os] and [uuid] taken as
    parameters, and proves the properties listed in section 8 of the
    specification.  The two module-level calls that set the page up
    ([st.set_page_config], [st.title]) precede [main] and are left out. *)

From Stdlib Require Import ZArith List String Ascii Bool Lia SpecFloat.
From Stdlib Require PrimFloat FloatOps Uint63.
From Equations Require Import Equations.
Import ListNotations.
Open Scope Z_scope.

(** ** Python values used by the script *)

(** Exceptions.  [StopException] is what [st.stop()] raises; in Streamlit it
    derives from [BaseException], so [except Exception] lets it through
    while a bare [except:] catches it. *)
Inductive exn :=
| StopException
| Exception_ (kind : string) (msg : string).

Definition is_Exception (e : exn) : bool :=
  match e with
  | StopException => false
  | Exception_ _ _ => true
  end.

(** [str(e)] *)
Definition exn_str (e : exn) : string :=
  match e with
  | StopException => ""%string
  | Exception_ _ msg => msg
  end.

(** Result of evaluating an expression that may raise. *)
Inductive result (A : Type) :=
| Ok (a : A)
| Raise (e : exn).
Arguments Ok {A} a.
Arguments Raise {A} e.

Definition OverflowError := Exception_ "OverflowError" "".
Definition ValueError := Exception_ "ValueError" "".
Definition ZeroDivisionError := Exception_ "ZeroDivisionError" "".
Definition AttributeError := Exception_ "AttributeError" "".

(** ** Python floats

    A Python [float] is an IEEE 754 binary64 number; the operations are the
    round-to-nearest-even ones of [SpecFloat] at [prec = 53], [emax = 1024]. *)
Module PyFloat.

Definition prec := 53.
Definition emax := 1024.

Definition float := spec_float.

(** [float(n)] for an [int]: the nearest double, [OverflowError] beyond
    the range. *)
Definition of_int (n : Z) : result float :=
  match binary_normalize prec emax n 0 false with
  | S754_infinity _ => Raise OverflowError
  | x => Ok x
  end.

(** [a / b] on two [int]s: CPython returns the correctly rounded quotient
    of the two integers (not of their roundings), and raises when [b] is
    zero or when the quotient is beyond the range. *)
Definition int_truediv (a b : Z) : result float :=
  let sign z := Z.ltb z 0 in
  match a, b with
  | _, Z0 => Raise ZeroDivisionError
  | Z0, _ => Ok (S754_zero (sign b))
  | (Zpos ma | Zneg ma), (Zpos mb | Zneg mb) =>
      match SFdiv prec emax (S754_finite (sign a) ma 0)
                            (S754_finite (sign b) mb 0) with
      | S754_infinity _ => Raise OverflowError
      | x => Ok x
      end
  end.

(** [n * x] for an [int] n and a [float] x: n is converted first. *)
Definition int_mul (n : Z) (x : float) : result float :=
  match of_int n with
  | Ok fn => Ok (SFmul prec emax fn x)
  | Raise e => Raise e
  end.

(** [int(x)]: truncation toward zero; infinities and NaN raise. *)
Definition to_int (x : float) : result Z :=
  match x with
  | S754_zero _ => Ok 0
  | S754_infinity _ => Raise OverflowError
  | S754_nan => Raise ValueError
  | S754_finite s m e =>
      let mag := match e with
                 | Zneg k => Z.shiftr (Zpos m) (Zpos k)
                 | _ => Z.shiftl (Zpos m) e
                 end in
      Ok (if s then - mag else mag)
  end.

(** [round(x)] with one argument: the nearest integer, ties to even. *)
Definition round (x : float) : result Z :=
  match x with
  | S754_zero _ => Ok 0
  | S754_infinity _ => Raise OverflowError
  | S754_nan => Raise ValueError
  | S754_finite s m e =>
      let mag :=
        match e with
        | Zneg k =>
            let d := Z.shiftl 1 (Zpos k) in
            let q := Zpos m / d in
            let r2 := 2 * (Zpos m mod d) in
            if r2 <? d then q
            else if d <? r2 then q + 1
            else if Z.even q then q else q + 1
        | _ => Z.shiftl (Zpos m) e
        end in
      Ok (if s then - mag else mag)
  end.

End PyFloat.

Definition bind_result {A B} (r : result A) (f : A -> result B) : result B :=
  match r with
  | Ok a => f a
  | Raise e => Raise e
  end.

(** ** Helper functions of [app.py] *)

(** [def opacity_to_255(opacity_percent): return int(255 * (opacity_percent / 100))]
    The argument is the value of an integer slider. *)
Definition opacity_to_255 (opacity_percent : Z) : result Z :=
  bind_result (PyFloat.int_truediv opacity_percent 100) (fun x =>
  bind_result (PyFloat.int_mul 255 x) (fun y =>
  PyFloat.to_int y)).

(** The formula of the specification, [round(255*p/100)], evaluated as
    Python evaluates it. *)
Definition spec_round_alpha (p : Z) : result Z :=
  bind_result (PyFloat.int_truediv (255 * p) 100) PyFloat.round.

Definition percentages : list Z := map Z.of_nat (seq 0 101).

Definition result_Z_eqb (a b : result Z) : bool :=
  match a, b with
  | Ok x, Ok y => Z.eqb x y
  | _, _ => false
  end.

(** ** Python strings

    A [str] is a sequence of code points.  String literals of the script and
    messages shown to the user are kept as [string]; the values typed by the
    user, which the script inspects character by character, are [pystr]. *)
Definition pystr := list N.

Definition pystr_of_string (s : string) : pystr :=
  map N_of_ascii (list_ascii_of_string s).

Definition between (lo hi c : N) : bool := (N.leb lo c && N.leb c hi)%bool.

(** [c.isspace()]: the code points CPython treats as whitespace. *)
Definition py_isspace (c : N) : bool :=
  (between 0x09 0x0D c || between 0x1C 0x1F c || N.eqb c 0x20
   || N.eqb c 0x85 || N.eqb c 0xA0 || N.eqb c 0x1680
   || between 0x2000 0x200A c || N.eqb c 0x2028 || N.eqb c 0x2029
   || N.eqb c 0x202F || N.eqb c 0x205F || N.eqb c 0x3000)%bool.

Fixpoint lstrip (s : pystr) : pystr :=
  match s with
  | c :: rest => if py_isspace c then lstrip rest else s
  | [] => []
  end.

Definition rstrip (s : pystr) : pystr := rev (lstrip (rev s)).

(** [s.strip()] *)
Definition strip (s : pystr) : pystr := rstrip (lstrip s).

(** Truth value of a [str]: non-empty. *)
Definition str_truthy (s : pystr) : bool :=
  match s with
  | [] => false
  | _ :: _ => true
  end.

(** [s[i:j]] for non-negative constant bounds. *)
Definition slice (s : pystr) (i j : nat) : pystr := firstn (j - i) (skipn i s).

(** *** [int(s, 16)]

    CPython first maps non-ASCII whitespace to a space, then skips the
    whitespace of the C locale on both sides, reads an optional sign, an
    optional [0x] prefix, and hexadecimal digits that single underscores may
    separate.  Decimal digits of other scripts, which CPython also accepts,
    are not modelled: such a string is rejected here. *)
Definition int_isspace (c : N) : bool :=
  (between 0x09 0x0D c || N.eqb c 0x20 || (N.leb 127 c && py_isspace c))%bool.

Definition hex_digit_val (c : N) : option Z :=
  if between 48 57 c then Some (Z.of_N c - 48)
  else if between 97 102 c then Some (Z.of_N c - 87)
  else if between 65 70 c then Some (Z.of_N c - 55)
  else None.

Definition underscore : N := 95.

Fixpoint scan_digits (s : pystr) (acc : Z) (ndigits : nat) (prev_us : bool)
  : option (Z * nat * pystr) :=
  match s with
  | c :: rest =>
      if N.eqb c underscore then
        if prev_us then None else scan_digits rest acc ndigits true
      else
        match hex_digit_val c with
        | Some d => scan_digits rest (16 * acc + d) (S ndigits) false
        | None => if prev_us then None else Some (acc, ndigits, s)
        end
  | [] => if prev_us then None else Some (acc, ndigits, [])
  end.

Fixpoint skip_int_space (s : pystr) : pystr :=
  match s with
  | c :: rest => if int_isspace c then skip_int_space rest else s
  | [] => []
  end.

Definition int16 (s : pystr) : result Z :=
  let s := skip_int_space s in
  let '(negative, s) :=
    match s with
    | 43%N :: rest => (false, rest)
    | 45%N :: rest => (true, rest)
    | _ => (false, s)
    end in
  let s :=
    match s with
    | 48%N :: (120%N | 88%N) :: rest =>
        match rest with
        | 95%N :: rest' => rest'
        | _ => rest
        end
    | _ => s
    end in
  match s with
  | 95%N :: _ => Raise ValueError
  | _ =>
      match scan_digits s 0 0 false with
      | Some (v, S _, rest) =>
          match skip_int_space rest with
          | [] => Ok (if negative then - v else v)
          | _ :: _ => Raise ValueError
          end
      | _ => Raise ValueError
      end
  end.

(** ** Pillow images

    A bitmap is a size and its pixels in row order.  The pixel formats are
    the Pillow modes RGB, RGBA, L (greyscale), LA and P (palette).  A PNG
    without alpha band can carry a transparency key, which Pillow keeps in
    [im.info["transparency"]]: a colour for RGB, a grey level for L, and for
    P either a palette index or a table of alpha values, one per palette
    entry.  The modes 1, I, F and CMYK are outside this model. *)
Inductive PaletteTransparency :=
| NoTransparency
| TransparentIndex (i : Z)
| AlphaTable (alphas : list Z).

Inductive PixelData :=
| RGBData (px : list (Z * Z * Z))
| RGBAData (px : list (Z * Z * Z * Z))
| RGBKeyData (key : Z * Z * Z) (px : list (Z * Z * Z))
| LData (key : option Z) (px : list Z)
| LAData (px : list (Z * Z))
| PData (palette : list (Z * Z * Z)) (transparency : PaletteTransparency)
        (px : list Z).

Record Image := mkImage { im_size : Z * Z; im_data : PixelData }.

Inductive Mode := RGB | RGBA | Grey | GreyAlpha | Palette.

Definition im_mode (im : Image) : Mode :=
  match im_data im with
  | RGBData _ => RGB
  | RGBAData _ => RGBA
  | RGBKeyData _ _ => RGB
  | LData _ _ => Grey
  | LAData _ => GreyAlpha
  | PData _ _ _ => Palette
  end.

(** The colour of a palette index; an index beyond the palette reads as
    black. *)
Definition palette_color (palette : list (Z * Z * Z)) (i : Z) : Z * Z * Z :=
  nth (Z.to_nat i) palette (0, 0, 0).

(** The pixels as (R, G, B) triples, a grey level or a palette index being
    expanded, and the alpha band when there is one. *)
Definition rgb_of (im : Image) : list (Z * Z * Z) :=
  match im_data im with
  | RGBData px => px
  | RGBAData px => map (fun '(r, g, b, _) => (r, g, b)) px
  | RGBKeyData _ px => px
  | LData _ px => map (fun l => (l, l, l)) px
  | LAData px => map (fun '(l, _) => (l, l, l)) px
  | PData palette _ px => map (palette_color palette) px
  end.

Definition alpha_of (im : Image) : option (list Z) :=
  match im_data im with
  | RGBAData px => Some (map (fun '(_, _, _, a) => a) px)
  | LAData px => Some (map (fun '(_, a) => a) px)
  | _ => None
  end.

Definition rgb_eqb (c d : Z * Z * Z) : bool :=
  let '(r, g, b) := c in
  let '(r', g', b') := d in
  (Z.eqb r r' && Z.eqb g g' && Z.eqb b b')%bool.

Module PIL.

(** [im.copy()]: a new image with the same size, pixels and transparency
    key. *)
Definition copy (im : Image) : Image := mkImage (im_size im) (im_data im).

(** [im.convert("RGBA")]: an RGB image gets an alpha band of 255; an RGBA
    image is copied; a grey level becomes three equal channels; a palette
    index becomes its palette colour.  A transparency key is promoted to the
    alpha band: the pixels equal to the key colour or grey level, or of the
    key index, get alpha 0 and the others 255; with an alpha table a pixel
    gets the alpha of its index, 255 beyond the table. *)
Definition convert_RGBA (im : Image) : Image :=
  match im_data im with
  | RGBData px =>
      mkImage (im_size im) (RGBAData (map (fun '(r, g, b) => (r, g, b, 255)) px))
  | RGBAData _ => copy im
  | RGBKeyData key px =>
      mkImage (im_size im)
        (RGBAData (map (fun c => let '(r, g, b) := c in
                                 (r, g, b, if rgb_eqb c key then 0 else 255)) px))
  | LData None px =>
      mkImage (im_size im) (RGBAData (map (fun l => (l, l, l, 255)) px))
  | LData (Some k) px =>
      mkImage (im_size im)
        (RGBAData (map (fun l => (l, l, l, if Z.eqb l k then 0 else 255)) px))
  | LAData px =>
      mkImage (im_size im) (RGBAData (map (fun '(l, a) => (l, l, l, a)) px))
  | PData palette transparency px =>
      mkImage (im_size im)
        (RGBAData
           (map (fun i =>
                   let '(r, g, b) := palette_color palette i in
                   (r, g, b,
                    match transparency with
                    | NoTransparency => 255
                    | TransparentIndex k => if Z.eqb i k then 0 else 255
                    | AlphaTable alphas => nth (Z.to_nat i) alphas 255
                    end)) px))
  end.

(** [im.resize(size, resample)] on an RGBA image: Pillow returns a copy when
    the size is already the requested one, and otherwise a new image of the
    requested size filled by the resampling filter, here a parameter. *)
Definition resize (filter : Image -> Z * Z -> list (Z * Z * Z * Z))
           (im : Image) (size : Z * Z) : Image :=
  if (Z.eqb (fst (im_size im)) (fst size) && Z.eqb (snd (im_size im)) (snd size))%bool
  then copy im
  else mkImage size (RGBAData (filter im size)).

End PIL.

Inductive Font :=
| TrueType (name : string) (size : Z)
| DefaultFont.

(** A value bound to an image variable of the script: [None], a Pillow
    image, or some other object (one that has none of the image methods). *)
Inductive pyval :=
| PyNone
| PyImage (im : Image)
| PyOther (descr : string).

(** [isinstance(v, Image.Image)] *)
Definition isinstance_Image (v : pyval) : bool :=
  match v with
  | PyImage _ => true
  | _ => false
  end.

(** Method call on an image variable: [AttributeError] unless it holds an
    image. *)
Definition as_image (v : pyval) : result Image :=
  match v with
  | PyImage im => Ok im
  | _ => Raise AttributeError
  end.

(** ** What the user sees, and the files written *)

Inductive Place := MainArea | Sidebar.

Inductive Event :=
| Info (p : Place) (msg : string)
| Warning (p : Place) (msg : string)
| Error (p : Place) (msg : string)
| Success (p : Place) (msg : string)
| Subheader (p : Place) (msg : string)
| Widget (p : Place) (label : string)
| ShowImage (p : Place) (v : pyval) (caption : string)
| ShowFile (p : Place) (file_name : string) (caption : string)
| Cropper (v : pyval) (key : string)
| Save (file_name : string) (quality : Z) (im : Image)
| DownloadButton (file_name : string).

(** An encoded file on disk: the bitmap that was encoded, the quality, and
    the size in bytes the encoder produced. *)
Record SavedFile := mkSavedFile {
  sf_image : Image;
  sf_quality : Z;
  sf_size : Z
}.

Record World := mkWorld {
  events : list Event;                  (* oldest first *)
  files : list (string * SavedFile)     (* the first binding of a name counts *)
}.

Definition lookup_file (name : string) (fs : list (string * SavedFile))
  : option SavedFile :=
  match find (fun kv => String.eqb (fst kv) name) fs with
  | Some kv => Some (snd kv)
  | None => None
  end.

(** ** The script monad: state passing with exceptions

    A raise keeps the state reached so far. *)
Definition M (A : Type) : Type := World -> World * result A.

Definition ret {A} (a : A) : M A := fun w => (w, Ok a).

Definition bind {A B} (m : M A) (f : A -> M B) : M B :=
  fun w =>
    match m w with
    | (w', Ok a) => f a w'
    | (w', Raise e) => (w', Raise e)
    end.

Definition raise {A} (e : exn) : M A := fun w => (w, Raise e).

Definition lift {A} (r : result A) : M A := fun w => (w, r).

Definition emit (ev : Event) : M unit :=
  fun w => (mkWorld (events w ++ [ev]) (files w), Ok tt).

(** [try: body  except Exception as e: handler e] *)
Definition try_except_Exception {A} (body : M A) (handler : exn -> M A) : M A :=
  fun w =>
    match body w with
    | (w', Raise e) => if is_Exception e then handler e w' else (w', Raise e)
    | r => r
    end.

(** [st.stop()] *)
Definition st_stop {A} : M A := raise StopException.

Declare Scope script_scope.
Delimit Scope script_scope with script.
Notation "x <- m ;; k" := (bind m (fun x => k))
  (at level 61, m at next level, right associativity) : script_scope.
Notation "m ;; k" := (bind m (fun _ => k))
  (at level 61, right associativity) : script_scope.
Open Scope script_scope.

(** ** The environment of a run *)

Inductive AspectChoice := Aspect_1_1 | Aspect_16_9 | Aspect_4_3 | Aspect_2_3 | Aspect_Free.

Inductive PositioningMode := Bottom | Top | Center | Custom.

(** The values the Streamlit widgets return in this run. *)
Record Widgets := mkWidgets {
  uploaded_file : option string;        (* file_uploader: None or the upload *)
  realtime_update : bool;               (* checkbox "Update in Real Time" *)
  box_color : pystr;                    (* color_picker "Box Color" *)
  aspect_choice : AspectChoice;         (* radio "Aspect Ratio" *)
  remove_bg : bool;                     (* checkbox "Remove Background" *)
  text_input : pystr;                   (* text_input "Text to Add" *)
  text_size : Z;                        (* slider "Text Size", 10..100 *)
  text_color : pystr;                   (* color_picker "Text Color" *)
  text_opacity : Z;                     (* slider "Text Opacity", 0..100 *)
  positioning_mode : PositioningMode;   (* radio "Text Position" *)
  create_sticker : bool                 (* button "Create Sticker" *)
}.

(** The library calls whose results the script does not determine. *)
Record Externals := mkExternals {
  (* PIL.Image.open *)
  Image_open : string -> result Image;
  (* the call [st_cropper(image, realtime_update=, box_color=, aspect_ratio=, key=)].
     The script binds the name by [import streamlit_cropper as st_cropper],
     that is to the module, and the call of a module raises [TypeError]; the
     outcome of the call is a parameter, so that the stages are described
     whatever the name is bound to *)
  st_cropper : pyval -> bool -> pystr -> option (Z * Z) -> string -> result pyval;
  (* rembg.remove on a Pillow image *)
  remove : Image -> result Image;
  (* ImageFont.truetype(name, size) *)
  truetype : string -> Z -> result Font;
  (* ImageDraw.textbbox((0, 0), text, font=font): left, top, right, bottom *)
  textbbox : Image -> pystr -> Font -> Z * Z * Z * Z;
  (* ImageDraw.text(position, text, font=font, fill=fill): the bitmap after drawing *)
  draw_text : Image -> Z * Z -> pystr -> Font -> Z * Z * Z * Z -> Image;
  (* the Lanczos filter behind Image.resize *)
  lanczos : Image -> Z * Z -> list (Z * Z * Z * Z);
  (* size in bytes of the WEBP encoding at a quality, method 6 *)
  webp_size : Image -> Z -> Z;
  (* uuid.uuid4().hex *)
  uuid4_hex : string;
  (* st.image / st.sidebar.image on an image variable: returns or raises *)
  st_image : pyval -> result unit
}.

Definition FileNotFoundError := Exception_ "FileNotFoundError" "".

(** Lines 124 to 128 of [add_text_to_image], "Parse color and opacity":
    the three channels are read from the slices [1:3], [3:5] and [5:7] of the
    colour string, then the opacity is converted. *)
Definition fill_color (text_color : pystr) (text_opacity : Z)
  : result (Z * Z * Z * Z) :=
  bind_result (int16 (slice text_color 1 3)) (fun r =>
  bind_result (int16 (slice text_color 3 5)) (fun g =>
  bind_result (int16 (slice text_color 5 7)) (fun b =>
  bind_result (opacity_to_255 text_opacity) (fun a =>
  Ok (r, g, b, a))))).

Section Script.

Variable ext : Externals.
Variable ui : Widgets.

(** A widget call: the widget is rendered and its value returned. *)
Definition widget {A} (p : Place) (label : string) (value : A) : M A :=
  emit (Widget p label) ;; ret value.

(** [get_font(size)]: both [except:] clauses are bare. *)
Definition get_font (size : Z) : Font :=
  match truetype ext "arial.ttf" size with
  | Ok f => f
  | Raise _ =>
      match truetype ext "DejaVuSans.ttf" size with
      | Ok f => f
      | Raise _ => DefaultFont
      end
  end.

(** *** Step 1: [upload_image()] *)
Definition upload_image : M pyval :=
  uploaded <- widget Sidebar "1. Upload an Image" (uploaded_file ui) ;;
  match uploaded with
  | None =>
      emit (Info MainArea "Please upload an image to begin.") ;;
      st_stop
  | Some f =>
      im <- lift (Image_open ext f) ;;
      ret (PyImage im)
  end.

(** *** Step 2: [crop_image(image)] *)
Definition aspect_dict (c : AspectChoice) : option (Z * Z) :=
  match c with
  | Aspect_1_1 => Some (1, 1)
  | Aspect_16_9 => Some (16, 9)
  | Aspect_4_3 => Some (4, 3)
  | Aspect_2_3 => Some (2, 3)
  | Aspect_Free => None
  end.

Definition crop_image (image : pyval) : M pyval :=
  emit (Subheader Sidebar "2. Crop Image") ;;
  realtime <- widget Sidebar "Update in Real Time" (realtime_update ui) ;;
  color <- widget Sidebar "Box Color" (box_color ui) ;;
  choice <- widget Sidebar "Aspect Ratio" (aspect_choice ui) ;;
  let aspect_ratio := aspect_dict choice in
  emit (Info MainArea "Drag to select crop area and double-click to confirm.") ;;
  emit (Cropper image "cropper") ;;
  cropped_img <- lift (st_cropper ext image realtime color aspect_ratio "cropper") ;;
  match cropped_img with
  | PyNone =>
      emit (Warning MainArea "Please complete the cropping step.") ;;
      st_stop
  | _ => ret cropped_img
  end.

(** *** Step 3: [remove_background(image)]

    Inside [try], a value that is not an image leads to [st.stop()], which
    always raises, so [remove] is reached with an image only.  When the
    [except] clause has run, the function ends without a [return]: the
    caller gets [None]. *)
Definition remove_background (image : pyval) : M pyval :=
  emit (Subheader Sidebar "3. Remove Background") ;;
  enabled <- widget Sidebar "Remove Background" (remove_bg ui) ;;
  if negb enabled then
    im <- lift (as_image image) ;;
    ret (PyImage (PIL.convert_RGBA im))
  else
    try_except_Exception
      (match image with
       | PyImage im =>
           output <- lift (remove ext im) ;;
           emit (Success Sidebar "✅ Background removed!") ;;
           ret (PyImage output)
       | _ =>
           emit (Error MainArea "Invalid image format after cropping.") ;;
           st_stop
       end)
      (fun e =>
         emit (Error Sidebar ("❌ Failed to remove background: " ++ exn_str e)) ;;
         ret PyNone).

(** *** Step 4: [add_text_to_image(image)] *)
Definition text_extent (bbox : Z * Z * Z * Z) : Z * Z :=
  let '(x0, y0, x1, y1) := bbox in (x1 - x0, y1 - y0).

Definition add_text_to_image (image : pyval) : M pyval :=
  emit (Subheader Sidebar "4. Add Text") ;;
  text <- widget Sidebar "Text to Add" (text_input ui) ;;
  size <- widget Sidebar "Text Size" (text_size ui) ;;
  color <- widget Sidebar "Text Color" (text_color ui) ;;
  opacity <- widget Sidebar "Text Opacity" (text_opacity ui) ;;
  mode <- widget Sidebar "Text Position" (positioning_mode ui) ;;
  (* Parse color and opacity *)
  fill_color <- lift (fill_color color opacity) ;;
  (* Copy image for editing *)
  im <- lift (as_image image) ;;
  let result_img := PIL.copy im in
  if str_truthy (strip text) then
    let font := get_font size in
    let '(text_width, text_height) := text_extent (textbbox ext result_img text font) in
    let '(img_w, img_h) := im_size result_img in
    position <-
      match mode with
      | Bottom => ret ((img_w - text_width) / 2, img_h - text_height - 10)
      | Top => ret ((img_w - text_width) / 2, 10)
      | Center => ret ((img_w - text_width) / 2, (img_h - text_height) / 2)
      | Custom =>
          emit (Warning MainArea "Custom text placement: adjust using preview below.") ;;
          let temp_img :=
            draw_text ext (PIL.copy result_img)
              ((img_w - text_width) / 2, (img_h - text_height) / 2)
              text font fill_color in
          emit (Cropper (PyImage temp_img) "text_placement") ;;
          lift (st_cropper ext (PyImage temp_img) true
                  (pystr_of_string "#FF0000") None "text_placement") ;;
          ret ((img_w - text_width) / 2, (img_h - text_height) / 2)
      end ;;
    (* Draw final text *)
    ret (PyImage (draw_text ext result_img position text font fill_color))
  else
    ret (PyImage result_img).

(** *** Step 5: [make_whatsapp_sticker(img, name_prefix)] *)
Definition save (im : Image) (file_name : string) (quality : Z) : M unit :=
  fun w =>
    (mkWorld (events w ++ [Save file_name quality im])
             ((file_name, mkSavedFile im quality (webp_size ext im quality)) :: files w),
     Ok tt).

(** [os.path.getsize(file_name)] *)
Definition getsize (file_name : string) : M Z :=
  fun w =>
    match lookup_file file_name (files w) with
    | Some f => (w, Ok (sf_size f))
    | None => (w, Raise FileNotFoundError)
    end.

(** The [while quality >= 20] loop, entered with the current [quality]. *)
Equations? quality_loop (im : Image) (file_name : string) (quality : Z) (w : World)
  : World * result unit by wf (Z.to_nat (quality - 19)) lt :=
  quality_loop im file_name quality w with Z_le_gt_dec 20 quality => {
    | right _ => (w, Ok tt);
    | left _ with (save im file_name quality ;; getsize file_name) w => {
        | (w1, Raise e) => (w1, Raise e);
        | (w1, Ok sz) with Z_le_gt_dec sz (100 * 1024) => {
            | left _ => (w1, Ok tt);
            | right _ => quality_loop im file_name (quality - 10) w1 } } }.
Proof. lia. Qed.

Definition make_whatsapp_sticker (img : pyval) (name_prefix : string) : M string :=
  im <- lift (as_image img) ;;
  let img := PIL.resize (lanczos ext) (PIL.convert_RGBA im) (512, 512) in
  let unique_id := substring 0 8 (uuid4_hex ext) in
  let file_name := (name_prefix ++ "_" ++ unique_id ++ ".webp")%string in
  quality_loop img file_name 90 ;;
  ret file_name.

(** *** [main()] *)
Definition show_image (p : Place) (v : pyval) (caption : string) : M unit :=
  emit (ShowImage p v caption) ;;
  lift (st_image ext v).

Definition main : M unit :=
  image <- upload_image ;;
  cropped_img <- crop_image image ;;
  bg_removed_img <- remove_background cropped_img ;;
  show_image Sidebar bg_removed_img "After Crop & BG Removal" ;;
  final_img <- add_text_to_image bg_removed_img ;;
  emit (Subheader MainArea "🎨 Final Sticker Preview") ;;
  show_image MainArea final_img "Preview (before resizing to 512×512)" ;;
  clicked <- widget Sidebar "✅ Create Sticker" (create_sticker ui) ;;
  if clicked then
    output_file <- make_whatsapp_sticker final_img "xtickr_sticker" ;;
    emit (Success MainArea ("🎉 Sticker created successfully: `" ++ output_file ++ "`")) ;;
    emit (ShowFile MainArea output_file "✅ Your WhatsApp Sticker") ;;
    emit (DownloadButton output_file)
  else
    ret tt.

End Script.

(** * Definitions used in the statements *)

(** The product [255 * (p / 100)] on the machine's own binary64 numbers,
    against which the model of [PyFloat] is checked below. *)
Definition hardware_product (p : Z) : spec_float :=
  FloatOps.Prim2SF
    (PrimFloat.mul (PrimFloat.of_uint63 (Uint63.of_Z 255))
       (PrimFloat.div (PrimFloat.of_uint63 (Uint63.of_Z p))
                      (PrimFloat.of_uint63 (Uint63.of_Z 100)))).

Definition model_product (p : Z) : result spec_float :=
  bind_result (PyFloat.int_truediv p 100) (PyFloat.int_mul 255).

Definition same_float (x : result spec_float) (y : spec_float) : bool :=
  match x, y with
  | Ok (S754_finite s m e), S754_finite s' m' e' =>
      (Bool.eqb s s' && Pos.eqb m m' && Z.eqb e e')%bool
  | Ok (S754_zero s), S754_zero s' => Bool.eqb s s'
  | _, _ => false
  end.

(** The qualities the loop can encode at, in order. *)
Definition quality_steps : list Z := [90; 80; 70; 60; 50; 40; 30; 20].

(** [Attempts size q qs]: entered with quality [q], the loop encodes at the
    qualities [qs], where [size q'] is the size of the file encoded at [q']. *)
Inductive Attempts (size : Z -> Z) : Z -> list Z -> Prop :=
| Attempts_exit q :
    q < 20 -> Attempts size q []
| Attempts_break q :
    20 <= q -> size q <= 100 * 1024 -> Attempts size q [q]
| Attempts_again q qs :
    20 <= q -> size q > 100 * 1024 -> Attempts size (q - 10) qs ->
    Attempts size q (q :: qs).

Definition saved (ext : Externals) (im : Image) (quality : Z) : SavedFile :=
  mkSavedFile im quality (webp_size ext im quality).

(** The world after encoding [im] into [file_name] at the qualities [qs]
    in turn. *)
Definition after_saves (ext : Externals) (im : Image) (file_name : string)
  (qs : list Z) (w : World) : World :=
  mkWorld (events w ++ map (fun q => Save file_name q im) qs)
          (map (fun q => (file_name, saved ext im q)) (rev qs) ++ files w).

(** The bitmap that [make_whatsapp_sticker] encodes, and the name it
    writes to. *)
Definition sticker_bitmap (ext : Externals) (im : Image) : Image :=
  PIL.resize (lanczos ext) (PIL.convert_RGBA im) (512, 512).

Definition sticker_file_name (ext : Externals) (name_prefix : string) : string :=
  (name_prefix ++ "_" ++ substring 0 8 (uuid4_hex ext) ++ ".webp")%string.

(** The hexadecimal digits with their values: 0-9, a-f, A-F. *)
Definition hex_digits : list (N * Z) :=
  map (fun k => ((48 + N.of_nat k)%N, Z.of_nat k)) (seq 0 10)
  ++ map (fun k => ((97 + N.of_nat k)%N, 10 + Z.of_nat k)) (seq 0 6)
  ++ map (fun k => ((65 + N.of_nat k)%N, 10 + Z.of_nat k)) (seq 0 6).

Definition HexDigit (c : N) (v : Z) : Prop := In (c, v) hex_digits.

Definition is_hex_digit (c : N) : bool :=
  existsb (fun d => N.eqb (fst d) c) hex_digits.

(** A string of the form #RRGGBB. *)
Definition is_hex_color (s : pystr) : bool :=
  match s with
  | [h; r1; r2; g1; g2; b1; b2] =>
      N.eqb h 35 && forallb is_hex_digit [r1; r2; g1; g2; b1; b2]
  | _ => false
  end.

(** What the colour picker and the opacity slider of the text stage
    guarantee about their values. *)
Definition text_style_valid (ui : Widgets) : Prop :=
  is_hex_color (text_color ui) = true /\ 0 <= text_opacity ui <= 100.

(** The widgets the text stage renders, in order. *)
Definition text_stage_widgets : list Event :=
  [Subheader Sidebar "4. Add Text"; Widget Sidebar "Text to Add";
   Widget Sidebar "Text Size"; Widget Sidebar "Text Color";
   Widget Sidebar "Text Opacity"; Widget Sidebar "Text Position"].

Definition shown (evs : list Event) (w : World) : World :=
  mkWorld (events w ++ evs) (files w).


(** What [main] shows before the background removal stage, when a file is
    uploaded and the crop widget returns. *)
Definition upload_events : list Event :=
  [Widget Sidebar "1. Upload an Image"].

Definition crop_events (image : pyval) : list Event :=
  [Subheader Sidebar "2. Crop Image";
   Widget Sidebar "Update in Real Time";
   Widget Sidebar "Box Color";
   Widget Sidebar "Aspect Ratio";
   Info MainArea "Drag to select crop area and double-click to confirm.";
   Cropper image "cropper"].

(** ** A concrete run

    A two-pixel RGB upload, a crop widget that returns its argument, a
    scalable font that is always found, an encoder whose output grows with
    the quality, and a matting call that fails or succeeds on demand. *)
Definition demo_image : Image :=
  mkImage (2, 1) (RGBData [(10, 20, 30); (40, 50, 60)]).

Definition demo_failure : exn := Exception_ "RuntimeError" "model file missing".

Definition demo_ext (matting_fails : bool) : Externals :=
  mkExternals
    (fun _ => Ok demo_image)
    (fun v _ _ _ _ => Ok v)
    (fun im => if matting_fails then Raise demo_failure else Ok (PIL.convert_RGBA im))
    (fun name size => Ok (TrueType name size))
    (fun _ text _ => (0, 0, 10 * Z.of_nat (List.length text), 12))
    (fun im _ _ _ _ => im)
    (fun _ _ => [])
    (fun _ q => 1000 * q)
    "0123456789abcdef0123456789abcdef"
    (fun _ => Ok tt).

Definition demo_ui (remove_bg : bool) (text : string) : Widgets :=
  mkWidgets (Some "upload.png"%string) true (pystr_of_string "#00FF00")
            Aspect_1_1 remove_bg (pystr_of_string text) 40
            (pystr_of_string "#FFFFFF") 100 Bottom true.

Definition empty_world : World := mkWorld [] [].

(** The alpha values that the transparency key of an image without alpha
    band gives its pixels: 0 where the pixel is the key colour, the key grey
    level or the key palette index, 255 elsewhere; with an alpha table, the
    entry of the pixel's palette index. *)
Definition transparency_alphas (im : Image) : list Z :=
  match im_data im with
  | RGBData px => map (fun _ => 255) px
  | RGBKeyData key px => map (fun c => if rgb_eqb c key then 0 else 255) px
  | LData None px => map (fun _ => 255) px
  | LData (Some k) px => map (fun l => if Z.eqb l k then 0 else 255) px
  | PData _ NoTransparency px => map (fun _ => 255) px
  | PData _ (TransparentIndex k) px => map (fun i => if Z.eqb i k then 0 else 255) px
  | PData _ (AlphaTable alphas) px => map (fun i => nth (Z.to_nat i) alphas 255) px
  | RGBAData _ => []
  | LAData _ => []
  end.

(** The image carries a transparency key. *)
Definition has_transparency (im : Image) : bool :=
  match im_data im with
  | RGBKeyData _ _ => true
  | LData (Some _) _ => true
  | PData _ (TransparentIndex _) _ => true
  | PData _ (AlphaTable _) _ => true
  | _ => false
  end.

(** A one-pixel palette image whose only palette entry is marked
    transparent. *)
Definition keyed_palette_image : Image :=
  mkImage (1, 1) (PData [(10, 20, 30)] (TransparentIndex 0) [0]).

(** ** Definitions for the further properties *)

(** The integers from -1000 to 1000. *)
Definition wide_percentages : list Z :=
  map (fun k => Z.of_nat k - 1000) (seq 0 2001).

(** The text has a character that is not whitespace. *)
Definition visible (s : pystr) : bool :=
  existsb (fun c => negb (py_isspace c)) s.

(** The same widget values with another choice of "Text Position". *)
Definition with_mode (mode : PositioningMode) (ui : Widgets) : Widgets :=
  mkWidgets (uploaded_file ui) (realtime_update ui) (box_color ui)
            (aspect_choice ui) (remove_bg ui) (text_input ui) (text_size ui)
            (text_color ui) (text_opacity ui) mode (create_sticker ui).

(** A computation that leaves the files on disk as they are. *)
Definition keeps_files {A} (m : M A) : Prop :=
  forall w, files (fst (m w)) = files w.

(** The size limit of the export, in bytes. *)
Definition size_limit : Z := 100 * 1024.

(** The concrete environment with another crop widget, font loader and
    encoder. *)
Definition demo_ext_with
  (cropper : pyval -> string -> result pyval)
  (fonts : string -> Z -> result Font)
  (sizes : Z -> Z) : Externals :=
  mkExternals
    (Image_open (demo_ext false))
    (fun v _ _ _ key => cropper v key)
    (remove (demo_ext false))
    fonts
    (textbbox (demo_ext false))
    (draw_text (demo_ext false))
    (lanczos (demo_ext false))
    (fun _ q => sizes q)
    (uuid4_hex (demo_ext false))
    (st_image (demo_ext false)).

Definition demo_type_error : exn :=
  Exception_ "TypeError" "'module' object is not callable".

Definition demo_os_error : exn := Exception_ "OSError" "cannot open resource".

(** ** Definitions for the failure of the matting call *)







Definition demo_preview_error : exn :=
  Exception_ "UnidentifiedImageError" "cannot identify image file".

(** An environment for the script as it is written: the call of the name
    [st_cropper], bound to a module, raises [TypeError]; the matting call
    fails; the preview widget raises on a value that is not an image. *)
Definition script_ext : Externals :=
  mkExternals
    (Image_open (demo_ext false))
    (fun _ _ _ _ _ => Raise demo_type_error)
    (fun _ => Raise demo_failure)
    (truetype (demo_ext false))
    (textbbox (demo_ext false))
    (draw_text (demo_ext false))
    (lanczos (demo_ext false))
    (webp_size (demo_ext false))
    (uuid4_hex (demo_ext false))
    (fun v => match v with
              | PyImage _ => Ok tt
              | _ => Raise demo_preview_error
              end).

(** * Properties *)

(** ** [opacity_to_255] *)

Lemma percentages_spec p : 0 <= p <= 100 -> In p percentages.
Proof.
  intros Hp. unfold percentages.
  replace p with (Z.of_nat (Z.to_nat p)) by lia.
  apply in_map, in_seq. lia.
Qed.

Lemma result_Z_eqb_eq a b : result_Z_eqb a b = true -> a = b.
Proof.
  destruct a, b; simpl; try discriminate.
  intros H. apply Z.eqb_eq in H. now subst.
Qed.

Lemma opacity_table :
  forallb (fun p => result_Z_eqb (opacity_to_255 p) (Ok (255 * p / 100)))
          percentages = true.
Proof. vm_compute. reflexivity. Qed.

Lemma opacity_to_255_floor p :
  0 <= p <= 100 -> opacity_to_255 p = Ok (255 * p / 100).
Proof.
  intros Hp. apply result_Z_eqb_eq.
  pose proof opacity_table as T. rewrite forallb_forall in T.
  apply T, percentages_spec, Hp.
Qed.

(** On the whole range of the slider the model computes, bit for bit, the
    product the processor computes. *)
Lemma model_agrees_with_hardware :
  forallb (fun p => same_float (model_product p) (hardware_product p))
          percentages = true.
Proof. vm_compute. reflexivity. Qed.

Example ex_opacity_1 : opacity_to_255 1 = Ok 2 /\ spec_round_alpha 1 = Ok 3.
Proof. split; vm_compute; reflexivity. Qed.

(** ** The string functions on examples *)

Example ex_int16 :
  map int16 (map pystr_of_string ["ff"; "FF"; "0a"; "+f"; " f"; "-f"; "f_"; "0x"; "g0"; ""; "f"]%string)
  = [Ok 255; Ok 255; Ok 10; Ok 15; Ok 15; Ok (-15); Raise ValueError;
     Raise ValueError; Raise ValueError; Raise ValueError; Ok 15].
Proof. reflexivity. Qed.

Example ex_strip :
  strip (pystr_of_string "  hi there ") = pystr_of_string "hi there"
  /\ strip [0x20; 0x3000; 0x09]%N = [].
Proof. split; reflexivity. Qed.

(** ** [opacity_to_255]: the claims *)

(** C1, as stated, fails: at 1 percent the script yields alpha 2, whereas
    [round(255*1/100)] is 3. *)
Lemma C1_opacity_is_not_rounded :
  0 <= 1 <= 100 /\ opacity_to_255 1 = Ok 2 /\ spec_round_alpha 1 = Ok 3
  /\ opacity_to_255 1 <> spec_round_alpha 1.
Proof.
  repeat split; try lia; try (vm_compute; reflexivity).
  vm_compute. discriminate.
Qed.

(** C1, amended: for every integer percentage p in [0,100],
    [opacity_to_255 p] is 255*p/100 truncated, that is the floor of the exact
    quotient; p = 0 gives alpha 0 and p = 100 gives alpha 255. *)
Theorem C1_opacity_to_255_truncates (p : Z) :
  0 <= p <= 100 ->
  opacity_to_255 p = Ok (255 * p / 100)
  /\ opacity_to_255 0 = Ok 0
  /\ opacity_to_255 100 = Ok 255.
Proof.
  intros Hp. split; [ now apply opacity_to_255_floor | ].
  split; vm_compute; reflexivity.
Qed.

Lemma C1_opacity_to_255_truncates_witness :
  0 <= 50 <= 100
  /\ (opacity_to_255 50 = Ok (255 * 50 / 100)
      /\ opacity_to_255 0 = Ok 0 /\ opacity_to_255 100 = Ok 255).
Proof.
  split; [ lia | apply (C1_opacity_to_255_truncates 50); lia ].
Defined.

(** C10: on [0,100] [opacity_to_255] returns a value, the value lies in
    [0,255], and a larger percentage never gives a smaller alpha. *)
Theorem C10_opacity_monotone_bounded (p q : Z) :
  0 <= p -> p <= q -> q <= 100 ->
  exists a b,
    opacity_to_255 p = Ok a /\ opacity_to_255 q = Ok b
    /\ a <= b /\ 0 <= a <= 255 /\ 0 <= b <= 255.
Proof.
  intros H0 Hpq H100.
  exists (255 * p / 100), (255 * q / 100).
  rewrite !opacity_to_255_floor by lia.
  repeat split.
  - apply Z.div_le_mono; lia.
  - apply Z.div_pos; lia.
  - apply Z.div_le_upper_bound; lia.
  - apply Z.div_pos; lia.
  - apply Z.div_le_upper_bound; lia.
Qed.

Lemma C10_opacity_monotone_bounded_witness :
  exists a b,
    opacity_to_255 30 = Ok a /\ opacity_to_255 70 = Ok b
    /\ a <= b /\ 0 <= a <= 255 /\ 0 <= b <= 255.
Proof.
  apply (C10_opacity_monotone_bounded 30 70); lia.
Defined.

(** ** The export loop *)

Section ExportLoop.

Variable ext : Externals.
Variable im : Image.
Variable file_name : string.

Lemma lookup_file_head (f : SavedFile) fs :
  lookup_file file_name ((file_name, f) :: fs) = Some f.
Proof.
  unfold lookup_file. simpl. now rewrite String.eqb_refl.
Qed.

Lemma save_getsize quality w :
  (save ext im file_name quality ;; getsize file_name) w
  = (after_saves ext im file_name [quality] w, Ok (webp_size ext im quality)).
Proof.
  unfold bind, save, getsize, after_saves. simpl.
  now rewrite lookup_file_head.
Qed.

Lemma after_saves_cons q qs w :
  after_saves ext im file_name qs (after_saves ext im file_name [q] w)
  = after_saves ext im file_name (q :: qs) w.
Proof.
  unfold after_saves. simpl.
  rewrite <- !app_assoc, map_app. simpl.
  now rewrite <- app_assoc.
Qed.

Lemma quality_loop_step quality w :
  quality_loop ext im file_name quality w =
  if Z_le_gt_dec 20 quality then
    if Z_le_gt_dec (webp_size ext im quality) (100 * 1024)
    then (after_saves ext im file_name [quality] w, Ok tt)
    else quality_loop ext im file_name (quality - 10)
           (after_saves ext im file_name [quality] w)
  else (w, Ok tt).
Proof.
  rewrite quality_loop_equation_1.
  destruct (Z_le_gt_dec 20 quality) as [Hq | Hq]; simpl; [ | reflexivity ].
  rewrite save_getsize. simpl.
  destruct (Z_le_gt_dec (webp_size ext im quality) (100 * 1024)); reflexivity.
Qed.

(** The loop is total: from any quality it returns, having encoded at the
    qualities [Attempts] describes. *)
Lemma quality_loop_attempts quality w :
  exists qs,
    Attempts (webp_size ext im) quality qs
    /\ quality_loop ext im file_name quality w
       = (after_saves ext im file_name qs w, Ok tt).
Proof.
  remember (Z.to_nat (quality - 19)) as n eqn:Hn.
  revert quality w Hn.
  induction n as [n IH] using lt_wf_ind. intros quality w Hn.
  rewrite quality_loop_step.
  destruct (Z_le_gt_dec 20 quality) as [Hq | Hq].
  - destruct (Z_le_gt_dec (webp_size ext im quality) (100 * 1024)) as [Hs | Hs].
    + exists [quality]. split; [ now apply Attempts_break | reflexivity ].
    + destruct (IH (Z.to_nat (quality - 10 - 19)) ltac:(lia)
                   (quality - 10) (after_saves ext im file_name [quality] w) eq_refl)
        as (qs & Hqs & Heq).
      exists (quality :: qs). split; [ now apply Attempts_again | ].
      now rewrite Heq, after_saves_cons.
  - exists []. split; [ apply Attempts_exit; lia | ].
    unfold after_saves. simpl. rewrite app_nil_r. now destruct w.
Qed.

End ExportLoop.

(** Entered at 90, the loop encodes at a non-empty initial segment of
    90, 80, ..., 20. *)
Ltac segment n := exists n; split; [ lia | reflexivity ].

Lemma Attempts_from_90 size qs :
  Attempts size 90 qs ->
  exists n, (1 <= n <= 8)%nat /\ qs = firstn n quality_steps.
Proof.
  intros H.
  inversion H as [q Hq | q Hq Hs | q qs1 Hq Hs H1]; subst; [ lia | segment 1%nat | ].
  simpl in H1.
  inversion H1 as [q Hq2 | q Hq2 Hs2 | q qs2 Hq2 Hs2 H2]; subst; [ lia | segment 2%nat | ].
  simpl in H2.
  inversion H2 as [q Hq3 | q Hq3 Hs3 | q qs3 Hq3 Hs3 H3]; subst; [ lia | segment 3%nat | ].
  simpl in H3.
  inversion H3 as [q Hq4 | q Hq4 Hs4 | q qs4 Hq4 Hs4 H4]; subst; [ lia | segment 4%nat | ].
  simpl in H4.
  inversion H4 as [q Hq5 | q Hq5 Hs5 | q qs5 Hq5 Hs5 H5]; subst; [ lia | segment 5%nat | ].
  simpl in H5.
  inversion H5 as [q Hq6 | q Hq6 Hs6 | q qs6 Hq6 Hs6 H6]; subst; [ lia | segment 6%nat | ].
  simpl in H6.
  inversion H6 as [q Hq7 | q Hq7 Hs7 | q qs7 Hq7 Hs7 H7]; subst; [ lia | segment 7%nat | ].
  simpl in H7.
  inversion H7 as [q Hq8 | q Hq8 Hs8 | q qs8 Hq8 Hs8 H8]; subst; [ lia | segment 8%nat | ].
  simpl in H8.
  inversion H8; subst; try lia.
  segment 8%nat.
Qed.

Lemma resize_size filter im size : im_size (PIL.resize filter im size) = size.
Proof.
  unfold PIL.resize.
  destruct (im_size im) as [w h] eqn:Hs, size as [w' h']. simpl.
  destruct (Z.eqb_spec w w'), (Z.eqb_spec h h'); simpl; subst; auto.
Qed.

Lemma sticker_bitmap_size ext im : im_size (sticker_bitmap ext im) = (512, 512).
Proof. apply resize_size. Qed.

Lemma make_whatsapp_sticker_eq ext im name_prefix w :
  make_whatsapp_sticker ext (PyImage im) name_prefix w =
  match quality_loop ext (sticker_bitmap ext im) (sticker_file_name ext name_prefix) 90 w with
  | (w', Ok _) => (w', Ok (sticker_file_name ext name_prefix))
  | (w', Raise e) => (w', Raise e)
  end.
Proof. reflexivity. Qed.

Lemma make_whatsapp_sticker_run ext im name_prefix w :
  exists n,
    (1 <= n <= 8)%nat
    /\ make_whatsapp_sticker ext (PyImage im) name_prefix w
       = (after_saves ext (sticker_bitmap ext im) (sticker_file_name ext name_prefix)
                      (firstn n quality_steps) w,
          Ok (sticker_file_name ext name_prefix)).
Proof.
  destruct (quality_loop_attempts ext (sticker_bitmap ext im)
              (sticker_file_name ext name_prefix) 90 w) as (qs & Hqs & Hrun).
  destruct (Attempts_from_90 _ _ Hqs) as (n & Hn & ->).
  exists n. split; [ exact Hn | ].
  now rewrite make_whatsapp_sticker_eq, Hrun.
Qed.

Lemma lookup_after_saves ext im file_name qs q w :
  lookup_file file_name (files (after_saves ext im file_name (qs ++ [q]) w))
  = Some (saved ext im q).
Proof.
  unfold after_saves. simpl. rewrite rev_app_distr. simpl.
  apply lookup_file_head.
Qed.

Lemma In_firstn {A} (n : nat) (l : list A) (x : A) :
  In x (firstn n l) -> In x l.
Proof.
  revert l. induction n as [ | n IH]; intros [ | y l]; simpl; try tauto.
  intros [-> | H]; [ now left | right; now apply IH ].
Qed.

Lemma quality_steps_range n q :
  In q (firstn n quality_steps) -> 20 <= q <= 90 /\ q mod 10 = 0.
Proof.
  intros Hin. apply In_firstn in Hin. simpl in Hin.
  repeat (destruct Hin as [<- | Hin]; [ split; [ lia | reflexivity ] | ]).
  contradiction.
Qed.

(** C2: for every input bitmap, [make_whatsapp_sticker] returns a file
    name, the file of that name holds a bitmap of exactly 512 by 512 pixels,
    and every encode of the run was given a 512 by 512 bitmap. *)
Theorem C2_sticker_is_512_square
  (ext : Externals) (im : Image) (name_prefix : string) (w : World) :
  exists file_name w' f new_events,
    make_whatsapp_sticker ext (PyImage im) name_prefix w = (w', Ok file_name)
    /\ lookup_file file_name (files w') = Some f
    /\ im_size (sf_image f) = (512, 512)
    /\ events w' = events w ++ new_events
    /\ forall name q img, In (Save name q img) new_events -> im_size img = (512, 512).
Proof.
  destruct (make_whatsapp_sticker_run ext im name_prefix w) as (n & Hn & Hrun).
  set (qs := firstn n quality_steps) in *.
  assert (Hne : qs <> []).
  { subst qs. destruct n; [ lia | discriminate ]. }
  destruct (exists_last Hne) as (qs' & q & Hlast).
  exists (sticker_file_name ext name_prefix),
    (after_saves ext (sticker_bitmap ext im) (sticker_file_name ext name_prefix) qs w),
    (saved ext (sticker_bitmap ext im) q),
    (map (fun q => Save (sticker_file_name ext name_prefix) q (sticker_bitmap ext im)) qs).
  split; [ exact Hrun | ].
  split; [ rewrite Hlast; apply lookup_after_saves | ].
  split; [ apply sticker_bitmap_size | ].
  split; [ reflexivity | ].
  intros name q0 img Hin. apply in_map_iff in Hin.
  destruct Hin as (q1 & Heq & _). inversion Heq; subst.
  apply sticker_bitmap_size.
Qed.

(** C4: for every input bitmap the export returns (the loop terminates),
    after between one and eight encodes, at the qualities 90, 80, ... in this
    order, each of them a multiple of ten between 20 and 90, whatever the
    sizes of the encoded files are. *)
Theorem C4_quality_loop_terminates
  (ext : Externals) (im : Image) (name_prefix : string) (w : World) :
  exists n w',
    (1 <= n <= 8)%nat
    /\ make_whatsapp_sticker ext (PyImage im) name_prefix w
       = (w', Ok (sticker_file_name ext name_prefix))
    /\ events w' = events w
         ++ map (fun q => Save (sticker_file_name ext name_prefix) q (sticker_bitmap ext im))
                (firstn n quality_steps)
    /\ Forall (fun q => 20 <= q <= 90 /\ q mod 10 = 0) (firstn n quality_steps).
Proof.
  destruct (make_whatsapp_sticker_run ext im name_prefix w) as (n & Hn & Hrun).
  exists n. eexists. split; [ exact Hn | ].
  split; [ exact Hrun | ].
  split; [ reflexivity | ].
  apply Forall_forall. intros q. apply quality_steps_range.
Qed.

(** C9: when the file encoded at quality 90 is at most 100 KiB, the export
    makes exactly one encode, the one at quality 90, and returns. *)
Theorem C9_single_encode_when_small
  (ext : Externals) (im : Image) (name_prefix : string) (w : World) :
  webp_size ext (sticker_bitmap ext im) 90 <= 100 * 1024 ->
  exists w',
    make_whatsapp_sticker ext (PyImage im) name_prefix w
    = (w', Ok (sticker_file_name ext name_prefix))
    /\ events w' = events w
         ++ [Save (sticker_file_name ext name_prefix) 90 (sticker_bitmap ext im)].
Proof.
  intros Hsmall.
  eexists. split.
  - rewrite make_whatsapp_sticker_eq, quality_loop_step.
    destruct (Z_le_gt_dec 20 90); [ | lia ].
    destruct (Z_le_gt_dec (webp_size ext (sticker_bitmap ext im) 90) (100 * 1024));
      [ reflexivity | lia ].
  - reflexivity.
Qed.

Lemma C9_single_encode_when_small_witness :
  exists w',
    make_whatsapp_sticker (demo_ext false) (PyImage demo_image) "xtickr_sticker" empty_world
    = (w', Ok "xtickr_sticker_01234567.webp"%string)
    /\ events w' = [Save "xtickr_sticker_01234567.webp" 90
                         (sticker_bitmap (demo_ext false) demo_image)].
Proof.
  apply (C9_single_encode_when_small (demo_ext false) demo_image
           "xtickr_sticker" empty_world).
  simpl. lia.
Defined.

(** ** Background removal switched off *)

Lemma convert_RGBA_size im : im_size (PIL.convert_RGBA im) = im_size im.
Proof.
  unfold PIL.convert_RGBA.
  destruct (im_data im) as [ | | | [k | ] | | ]; reflexivity.
Qed.

Lemma convert_RGBA_mode im : im_mode (PIL.convert_RGBA im) = RGBA.
Proof.
  unfold PIL.convert_RGBA, im_mode.
  destruct (im_data im) as [ | | | [k | ] | | ] eqn:Hd; simpl;
    try reflexivity.
  now rewrite Hd.
Qed.

Lemma convert_RGBA_rgb im : rgb_of (PIL.convert_RGBA im) = rgb_of im.
Proof.
  unfold PIL.convert_RGBA, rgb_of.
  destruct (im_data im) as [px | px | key px | [k | ] px | px | pal t px] eqn:Hd;
    simpl; try (now rewrite Hd); rewrite map_map.
  - rewrite <- (map_id px) at 2. apply map_ext. now intros [[r g] b].
  - rewrite <- (map_id px) at 2. apply map_ext. now intros [[r g] b].
  - reflexivity.
  - reflexivity.
  - apply map_ext. now intros [l a].
  - apply map_ext. intros i. now destruct (palette_color pal i) as [[r g] b].
Qed.

Lemma convert_RGBA_alpha im :
  alpha_of (PIL.convert_RGBA im)
  = Some (match alpha_of im with
          | Some a => a
          | None => transparency_alphas im
          end).
Proof.
  unfold PIL.convert_RGBA, alpha_of, transparency_alphas.
  destruct (im_data im)
    as [px | px | key px | [k | ] px | px | pal [ | k | al] px] eqn:Hd;
    simpl; try (now rewrite Hd); f_equal; rewrite map_map.
  - apply map_ext. now intros [[r g] b].
  - apply map_ext. now intros [[r g] b].
  - reflexivity.
  - reflexivity.
  - apply map_ext. now intros [l a].
  - apply map_ext. intros i. now destruct (palette_color pal i) as [[r g] b].
  - apply map_ext. intros i. now destruct (palette_color pal i) as [[r g] b].
  - apply map_ext. intros i. now destruct (palette_color pal i) as [[r g] b].
Qed.

Lemma map_constant {A B} (b : B) (l : list A) :
  map (fun _ => b) l = repeat b (List.length l).
Proof.
  induction l as [ | x l IH]; simpl; [ reflexivity | now rewrite IH ].
Qed.

Lemma opaque_alphas im :
  has_transparency im = false ->
  alpha_of im = None ->
  transparency_alphas im = repeat 255 (List.length (rgb_of im)).
Proof.
  unfold has_transparency, alpha_of, transparency_alphas, rgb_of.
  destruct (im_data im) as [px | px | key px | [k | ] px | px | pal [ | k | al] px];
    try discriminate; intros _ _; simpl;
    rewrite ?length_map; apply map_constant.
Qed.

(** C8, as stated, fails: a one-pixel palette image whose PNG marks palette
    entry 0 as transparent has no alpha band, yet with background removal
    switched off the stage returns it with alpha 0, not fully opaque. *)
Lemma C8_transparency_key_is_not_opaque :
  remove_bg (demo_ui false "Hi") = false
  /\ alpha_of keyed_palette_image = None
  /\ exists w' out,
      remove_background (demo_ext false) (demo_ui false "Hi")
        (PyImage keyed_palette_image) empty_world
      = (w', Ok (PyImage out))
      /\ rgb_of out = [(10, 20, 30)]
      /\ alpha_of out = Some [0]
      /\ alpha_of out <> Some (repeat 255 (List.length (rgb_of keyed_palette_image))).
Proof.
  split; [ reflexivity | ]. split; [ reflexivity | ].
  do 2 eexists. split; [ reflexivity | ].
  split; [ reflexivity | ]. split; [ reflexivity | discriminate ].
Qed.

(** C8, amended: with the "Remove Background" box unchecked, the stage
    returns an RGBA image of the same size whose red, green and blue values
    are those of the input (a grey level or a palette index expanded to its
    colour).  Its alpha band is the input's own when the input has one.  When
    the input has none, the alpha band comes from the input's transparency
    key, alpha 0 at the pixels the key designates; it is 255 everywhere
    (fully opaque) when the input has no such key. *)
Theorem C8_disabled_converts_to_RGBA
  (ext : Externals) (ui : Widgets) (im : Image) (w : World) :
  remove_bg ui = false ->
  exists w' out,
    remove_background ext ui (PyImage im) w = (w', Ok (PyImage out))
    /\ im_mode out = RGBA
    /\ im_size out = im_size im
    /\ rgb_of out = rgb_of im
    /\ alpha_of out = Some (match alpha_of im with
                            | Some a => a
                            | None => transparency_alphas im
                            end)
    /\ (alpha_of im = None -> has_transparency im = false ->
        alpha_of out = Some (repeat 255 (List.length (rgb_of im)))).
Proof.
  intros Hoff.
  unfold remove_background, widget, bind, emit, ret, lift. simpl.
  rewrite Hoff. simpl.
  eexists. exists (PIL.convert_RGBA im).
  split; [ reflexivity | ].
  split; [ apply convert_RGBA_mode | ].
  split; [ apply convert_RGBA_size | ].
  split; [ apply convert_RGBA_rgb | ].
  split; [ apply convert_RGBA_alpha | ].
  intros Hnone Hkey.
  now rewrite convert_RGBA_alpha, Hnone, (opaque_alphas im Hkey Hnone).
Qed.

Lemma C8_disabled_converts_to_RGBA_witness :
  exists w' out,
    remove_background (demo_ext false) (demo_ui false "Hi") (PyImage demo_image) empty_world
    = (w', Ok (PyImage out))
    /\ im_mode out = RGBA
    /\ im_size out = (2, 1)
    /\ rgb_of out = [(10, 20, 30); (40, 50, 60)]
    /\ alpha_of out = Some [255; 255]
    /\ (alpha_of demo_image = None -> has_transparency demo_image = false ->
        alpha_of out = Some [255; 255]).
Proof.
  apply (C8_disabled_converts_to_RGBA (demo_ext false) (demo_ui false "Hi")
           demo_image empty_world).
  reflexivity.
Defined.

(** ** Colour parsing *)

Lemma is_hex_digit_value c : is_hex_digit c = true -> exists v, HexDigit c v.
Proof.
  unfold is_hex_digit. rewrite existsb_exists.
  intros ([c' v] & Hin & Heq). simpl in Heq.
  apply N.eqb_eq in Heq. subst. now exists v.
Qed.

Lemma int16_pair_table :
  forallb (fun d1 =>
    forallb (fun d2 =>
      result_Z_eqb (int16 [fst d1; fst d2]) (Ok (16 * snd d1 + snd d2)))
      hex_digits) hex_digits = true.
Proof. vm_compute. reflexivity. Qed.

Lemma int16_pair c1 v1 c2 v2 :
  HexDigit c1 v1 -> HexDigit c2 v2 -> int16 [c1; c2] = Ok (16 * v1 + v2).
Proof.
  intros H1 H2. apply result_Z_eqb_eq.
  pose proof int16_pair_table as T. rewrite forallb_forall in T.
  specialize (T _ H1). rewrite forallb_forall in T.
  exact (T _ H2).
Qed.

Lemma HexDigit_range c v : HexDigit c v -> 0 <= v <= 15.
Proof.
  unfold HexDigit. simpl.
  intros H.
  repeat (destruct H as [H | H]; [ inversion H; lia | ]).
  contradiction.
Qed.

Lemma fill_color_hex r1 r2 g1 g2 b1 b2 vr1 vr2 vg1 vg2 vb1 vb2 h opacity :
  HexDigit r1 vr1 -> HexDigit r2 vr2 ->
  HexDigit g1 vg1 -> HexDigit g2 vg2 ->
  HexDigit b1 vb1 -> HexDigit b2 vb2 ->
  0 <= opacity <= 100 ->
  fill_color [h; r1; r2; g1; g2; b1; b2] opacity
  = Ok (16 * vr1 + vr2, 16 * vg1 + vg2, 16 * vb1 + vb2, 255 * opacity / 100).
Proof.
  intros Hr1 Hr2 Hg1 Hg2 Hb1 Hb2 Ho.
  unfold fill_color, slice. simpl firstn.
  rewrite (int16_pair _ _ _ _ Hr1 Hr2). simpl bind_result.
  rewrite (int16_pair _ _ _ _ Hg1 Hg2). simpl bind_result.
  rewrite (int16_pair _ _ _ _ Hb1 Hb2). simpl bind_result.
  now rewrite (opacity_to_255_floor _ Ho).
Qed.

(** C6: for a string made of [#] and six hexadecimal digits, the colour
    parsing of the text stage returns the triple the digits encode, each
    channel being sixteen times its first digit plus its second; every
    channel lies in [0,255]; and [#FFFFFF] parses to (255,255,255). *)
Theorem C6_hex_color_parsed
  (r1 r2 g1 g2 b1 b2 : N) (vr1 vr2 vg1 vg2 vb1 vb2 : Z) (opacity : Z) :
  HexDigit r1 vr1 -> HexDigit r2 vr2 ->
  HexDigit g1 vg1 -> HexDigit g2 vg2 ->
  HexDigit b1 vb1 -> HexDigit b2 vb2 ->
  0 <= opacity <= 100 ->
  let R := 16 * vr1 + vr2 in
  let G := 16 * vg1 + vg2 in
  let B := 16 * vb1 + vb2 in
  (exists a, fill_color [35%N; r1; r2; g1; g2; b1; b2] opacity = Ok (R, G, B, a))
  /\ 0 <= R <= 255 /\ 0 <= G <= 255 /\ 0 <= B <= 255
  /\ (exists a, fill_color (pystr_of_string "#FFFFFF") opacity = Ok (255, 255, 255, a)).
Proof.
  intros Hr1 Hr2 Hg1 Hg2 Hb1 Hb2 Ho R G B.
  split.
  { exists (255 * opacity / 100). now apply fill_color_hex. }
  pose proof (HexDigit_range _ _ Hr1). pose proof (HexDigit_range _ _ Hr2).
  pose proof (HexDigit_range _ _ Hg1). pose proof (HexDigit_range _ _ Hg2).
  pose proof (HexDigit_range _ _ Hb1). pose proof (HexDigit_range _ _ Hb2).
  subst R G B.
  repeat (split; [ lia | ]).
  exists (255 * opacity / 100).
  change (pystr_of_string "#FFFFFF") with [35; 70; 70; 70; 70; 70; 70]%N.
  assert (HF : HexDigit 70 15) by (unfold HexDigit; simpl; tauto).
  now rewrite (fill_color_hex _ _ _ _ _ _ _ _ _ _ _ _ _ _ HF HF HF HF HF HF Ho).
Qed.

Lemma C6_hex_color_parsed_witness :
  (exists a, fill_color (pystr_of_string "#1aF0c3") 50 = Ok (26, 240, 195, a))
  /\ 0 <= 26 <= 255 /\ 0 <= 240 <= 255 /\ 0 <= 195 <= 255
  /\ (exists a, fill_color (pystr_of_string "#FFFFFF") 50 = Ok (255, 255, 255, a)).
Proof.
  apply (C6_hex_color_parsed 49 97 70 48 99 51 1 10 15 0 12 3 50);
    try (unfold HexDigit; simpl; tauto); lia.
Defined.

(** ** Text overlay *)

Lemma fill_color_valid ui :
  text_style_valid ui ->
  exists r g b,
    fill_color (text_color ui) (text_opacity ui)
    = Ok (r, g, b, 255 * text_opacity ui / 100).
Proof.
  intros [Hc Ho]. unfold is_hex_color in Hc.
  destruct (text_color ui) as [ | h [ | r1 [ | r2 [ | g1 [ | g2 [ | b1 [ | b2 [ | ? ?]]]]]]]];
    try discriminate.
  apply andb_prop in Hc. destruct Hc as [_ Hd]. cbn [forallb] in Hd.
  repeat (apply andb_prop in Hd; destruct Hd as [?H Hd]).
  repeat match goal with
         | H : is_hex_digit _ = true |- _ =>
             apply is_hex_digit_value in H; destruct H as [? ?]
         end.
  do 3 eexists. apply fill_color_hex; eassumption.
Qed.

Lemma copy_id im : PIL.copy im = im.
Proof. now destruct im. Qed.

Lemma lstrip_whitespace s : forallb py_isspace s = true -> lstrip s = [].
Proof.
  induction s as [ | c s IH]; simpl; [ reflexivity | ].
  intros H. apply andb_prop in H. destruct H as [Hc Hs].
  rewrite Hc. now apply IH.
Qed.

Lemma strip_whitespace s : forallb py_isspace s = true -> strip s = [].
Proof.
  intros H. unfold strip. now rewrite (lstrip_whitespace _ H).
Qed.

(** The text stage up to the point where the text is examined. *)
Lemma add_text_to_image_prefix ext ui v w :
  add_text_to_image ext ui v w =
  match fill_color (text_color ui) (text_opacity ui) with
  | Raise e => (shown text_stage_widgets w, Raise e)
  | Ok fill =>
      match v with
      | PyImage im =>
          if str_truthy (strip (text_input ui)) then
            let font := get_font ext (text_size ui) in
            let '(text_width, text_height) :=
              text_extent (textbbox ext im (text_input ui) font) in
            let '(img_w, img_h) := im_size im in
            match positioning_mode ui with
            | Bottom =>
                (shown text_stage_widgets w,
                 Ok (PyImage (draw_text ext im
                       ((img_w - text_width) / 2, img_h - text_height - 10)
                       (text_input ui) font fill)))
            | Top =>
                (shown text_stage_widgets w,
                 Ok (PyImage (draw_text ext im
                       ((img_w - text_width) / 2, 10)
                       (text_input ui) font fill)))
            | Center =>
                (shown text_stage_widgets w,
                 Ok (PyImage (draw_text ext im
                       ((img_w - text_width) / 2, (img_h - text_height) / 2)
                       (text_input ui) font fill)))
            | Custom =>
                let centre := ((img_w - text_width) / 2, (img_h - text_height) / 2) in
                let temp_img := draw_text ext im centre (text_input ui) font fill in
                let w1 :=
                  shown (text_stage_widgets
                           ++ [Warning MainArea "Custom text placement: adjust using preview below.";
                               Cropper (PyImage temp_img) "text_placement"]) w in
                match st_cropper ext (PyImage temp_img) true
                        (pystr_of_string "#FF0000") None "text_placement" with
                | Ok _ =>
                    (w1, Ok (PyImage (draw_text ext im centre (text_input ui) font fill)))
                | Raise e => (w1, Raise e)
                end
            end
          else (shown text_stage_widgets w, Ok (PyImage im))
      | _ => (shown text_stage_widgets w, Raise AttributeError)
      end
  end.
Proof.
  unfold add_text_to_image, widget, bind, emit, ret, lift, shown. simpl.
  repeat rewrite <- app_assoc. simpl.
  destruct (fill_color (text_color ui) (text_opacity ui)) as [fill | e];
    [ | reflexivity ].
  destruct v as [ | im | d]; simpl; try reflexivity.
  rewrite copy_id.
  destruct (str_truthy (strip (text_input ui))); [ | reflexivity ].
  destruct (text_extent _) as [tw th].
  destruct (im_size im) as [iw ih].
  destruct (positioning_mode ui); try reflexivity.
  simpl. repeat rewrite <- app_assoc. simpl. rewrite copy_id.
  destruct (st_cropper ext _ _ _ _ _); reflexivity.
Qed.

(** C5: when the text is empty or consists of whitespace only, the text
    stage returns its input bitmap, same size and same pixels, and writes no
    file. *)
Theorem C5_blank_text_leaves_bitmap
  (ext : Externals) (ui : Widgets) (im : Image) (w : World) :
  text_style_valid ui ->
  forallb py_isspace (text_input ui) = true ->
  exists w',
    add_text_to_image ext ui (PyImage im) w = (w', Ok (PyImage im))
    /\ files w' = files w.
Proof.
  intros Hvalid Hblank.
  destruct (fill_color_valid ui Hvalid) as (r & g & b & Hfill).
  rewrite add_text_to_image_prefix, Hfill.
  rewrite (strip_whitespace _ Hblank). simpl.
  eexists. split; reflexivity.
Qed.

Lemma C5_blank_text_leaves_bitmap_witness :
  exists w',
    add_text_to_image (demo_ext false) (demo_ui true "  ") (PyImage demo_image) empty_world
    = (w', Ok (PyImage demo_image))
    /\ files w' = files empty_world.
Proof.
  apply (C5_blank_text_leaves_bitmap (demo_ext false) (demo_ui true "  ")
           demo_image empty_world).
  - split; [ reflexivity | simpl; lia ].
  - reflexivity.
Defined.

(** C7: in Bottom mode the text stage draws the text, when it has a
    character that is not whitespace, at x = (image width - text width) // 2
    and y = image height - text height - 10, the text width and height being
    those of the measured bounding box; a text without such a character is
    not drawn at all. *)
Theorem C7_bottom_anchor
  (ext : Externals) (ui : Widgets) (im : Image) (w : World) :
  text_style_valid ui ->
  positioning_mode ui = Bottom ->
  let font := get_font ext (text_size ui) in
  let '(x0, y0, x1, y1) := textbbox ext im (text_input ui) font in
  let text_width := x1 - x0 in
  let text_height := y1 - y0 in
  let image_width := fst (im_size im) in
  let image_height := snd (im_size im) in
  let position := ((image_width - text_width) / 2, image_height - text_height - 10) in
  exists w' fill,
    fill_color (text_color ui) (text_opacity ui) = Ok fill
    /\ add_text_to_image ext ui (PyImage im) w
       = (w', Ok (PyImage (if str_truthy (strip (text_input ui))
                           then draw_text ext im position (text_input ui) font fill
                           else im))).
Proof.
  intros Hvalid Hmode font.
  destruct (fill_color_valid ui Hvalid) as (r & g & b & Hfill).
  rewrite add_text_to_image_prefix, Hfill, Hmode.
  fold font. unfold text_extent.
  destruct (textbbox ext im (text_input ui) font) as [[[x0 y0] x1] y1].
  destruct (im_size im) as [iw ih]. simpl.
  destruct (str_truthy (strip (text_input ui)));
    eexists; exists (r, g, b, 255 * text_opacity ui / 100); split; reflexivity.
Qed.

Lemma C7_bottom_anchor_witness :
  exists w' fill,
    fill_color (pystr_of_string "#FFFFFF") 100 = Ok fill
    /\ add_text_to_image (demo_ext false) (demo_ui true "Hi") (PyImage demo_image) empty_world
       = (w', Ok (PyImage (draw_text (demo_ext false) demo_image
                             ((2 - 20) / 2, 1 - 12 - 10)
                             (pystr_of_string "Hi")
                             (TrueType "arial.ttf" 40) fill))).
Proof.
  apply (C7_bottom_anchor (demo_ext false) (demo_ui true "Hi") demo_image empty_world).
  - split; [ reflexivity | simpl; lia ].
  - reflexivity.
Defined.

(** ** A failing matting call *)


Lemma upload_image_ok ext ui w f im0 :
  uploaded_file ui = Some f ->
  Image_open ext f = Ok im0 ->
  upload_image ext ui w = (shown upload_events w, Ok (PyImage im0)).
Proof.
  intros Hup Hopen.
  unfold upload_image, widget, bind, emit, ret, lift, shown.
  simpl. rewrite Hup. simpl. now rewrite Hopen.
Qed.

Lemma bind_ok {A B} (m : M A) (f : A -> M B) w w1 a :
  m w = (w1, Ok a) -> bind m f w = f a w1.
Proof. intros H. unfold bind. now rewrite H. Qed.









Section Emits.

Variable P : Event -> bool.








End Emits.









(** * Further properties *)

(** ** [opacity_to_255] outside the slider's range *)

Lemma wide_percentages_spec p : -1000 <= p <= 1000 -> In p wide_percentages.
Proof.
  intros Hp. unfold wide_percentages.
  replace p with (Z.of_nat (Z.to_nat (p + 1000)) - 1000) by lia.
  apply (in_map (fun k => Z.of_nat k - 1000)), in_seq. lia.
Qed.

Lemma opacity_wide_table :
  forallb (fun p => result_Z_eqb (opacity_to_255 p) (Ok (Z.quot (255 * p) 100)))
          wide_percentages = true.
Proof. vm_compute. reflexivity. Qed.

(** X1: for an integer between -1000 and 1000 [opacity_to_255] returns
    255*p/100 truncated toward zero.  Nothing clamps the result: a
    percentage above 100 gives an alpha above 255 and a negative percentage
    gives a negative alpha. *)
Theorem opacity_to_255_truncates_toward_zero (p : Z) :
  -1000 <= p <= 1000 ->
  exists a,
    opacity_to_255 p = Ok a
    /\ a = Z.quot (255 * p) 100
    /\ (100 < p -> 255 < a)
    /\ (p < 0 -> a < 0).
Proof.
  intros Hp. exists (Z.quot (255 * p) 100).
  split.
  { apply result_Z_eqb_eq.
    pose proof opacity_wide_table as T. rewrite forallb_forall in T.
    apply T, wide_percentages_spec, Hp. }
  split; [ reflexivity | ].
  pose proof (Z.quot_rem' (255 * p) 100) as E.
  split; intros H.
  - pose proof (Z.rem_bound_pos (255 * p) 100 ltac:(lia) ltac:(lia)). lia.
  - pose proof (Z.rem_bound_pos_neg (255 * p) 100 ltac:(lia) ltac:(lia)). lia.
Qed.

Lemma opacity_to_255_truncates_toward_zero_witness :
  exists a,
    opacity_to_255 (-50) = Ok a
    /\ a = Z.quot (255 * (-50)) 100
    /\ (100 < -50 -> 255 < a)
    /\ (-50 < 0 -> a < 0).
Proof.
  apply (opacity_to_255_truncates_toward_zero (-50)). lia.
Defined.

(** ** Runs that end in the first two stages *)

(** X2: without an uploaded file [main] shows the uploader and the request
    to upload, then halts with [st.stop()]; no later stage runs and no file
    is written. *)
Theorem main_halts_without_upload (ext : Externals) (ui : Widgets) (w : World) :
  uploaded_file ui = None ->
  main ext ui w
  = (shown [Widget Sidebar "1. Upload an Image";
            Info MainArea "Please upload an image to begin."] w,
     Raise StopException).
Proof.
  intros Hnone.
  unfold main, upload_image, widget, bind, emit, ret, st_stop, raise, shown.
  simpl. rewrite Hnone. simpl.
  now repeat rewrite <- app_assoc.
Qed.

Lemma main_halts_without_upload_witness :
  main (demo_ext false)
       (mkWidgets None true [] Aspect_Free true [] 40 [] 100 Bottom true)
       empty_world
  = (shown [Widget Sidebar "1. Upload an Image";
            Info MainArea "Please upload an image to begin."] empty_world,
     Raise StopException).
Proof.
  apply (main_halts_without_upload (demo_ext false)
           (mkWidgets None true [] Aspect_Free true [] 40 [] 100 Bottom true)
           empty_world).
  reflexivity.
Defined.

(** X4: a library call that raises in the first two stages ends the run
    there with that exception: a file that [Image.open] cannot read ends it
    after the uploader, a failing crop call after the crop controls, without
    the warning of the crop stage. *)
Theorem main_ends_on_early_failure
  (ext : Externals) (ui : Widgets) (w : World) (f : string) (e : exn) :
  uploaded_file ui = Some f ->
  (Image_open ext f = Raise e ->
   main ext ui w = (shown upload_events w, Raise e))
  /\ (forall im0,
        Image_open ext f = Ok im0 ->
        st_cropper ext (PyImage im0) (realtime_update ui) (box_color ui)
                   (aspect_dict (aspect_choice ui)) "cropper" = Raise e ->
        main ext ui w
        = (shown (upload_events ++ crop_events (PyImage im0)) w, Raise e)).
Proof.
  intros Hup. split.
  - intros Hopen.
    unfold main, upload_image, widget, bind, emit, ret, lift, shown.
    simpl. rewrite Hup. simpl. now rewrite Hopen.
  - intros im0 Hopen Hcrop.
    unfold main.
    rewrite (bind_ok _ _ _ _ _ (upload_image_ok ext ui w f im0 Hup Hopen)).
    unfold bind at 1.
    unfold crop_image, widget, bind, emit, ret, lift, shown.
    simpl. rewrite Hcrop. simpl.
    now repeat rewrite <- app_assoc.
Qed.

Lemma main_ends_on_early_failure_witness :
  let ext := demo_ext_with (fun _ _ => Raise demo_type_error)
                           (truetype (demo_ext false)) (fun q => q) in
  main ext (demo_ui true "Hi") empty_world
  = (shown (upload_events ++ crop_events (PyImage demo_image)) empty_world,
     Raise demo_type_error).
Proof.
  intros ext.
  apply (proj2 (main_ends_on_early_failure ext (demo_ui true "Hi") empty_world
                  "upload.png" demo_type_error eq_refl) demo_image);
    reflexivity.
Defined.

(** ** Background removal on a value that is not an image *)

(** X5: given a value that is not a Pillow image, the stage with the box
    checked shows "Invalid image format after cropping." and halts with
    [st.stop()], which the [except Exception] clause does not catch: the
    failure message of the matting call is not shown.  With the box
    unchecked the [convert] call raises [AttributeError]. *)
Theorem remove_background_rejects_non_image
  (ext : Externals) (ui : Widgets) (v : pyval) (w : World) :
  isinstance_Image v = false ->
  remove_background ext ui v w
  = if remove_bg ui
    then (shown [Subheader Sidebar "3. Remove Background";
                 Widget Sidebar "Remove Background";
                 Error MainArea "Invalid image format after cropping."] w,
          Raise StopException)
    else (shown [Subheader Sidebar "3. Remove Background";
                 Widget Sidebar "Remove Background"] w,
          Raise AttributeError).
Proof.
  intros Hv.
  unfold remove_background, try_except_Exception, widget, bind, emit, ret,
    lift, st_stop, raise, shown.
  destruct v as [ | im | d]; try discriminate;
    simpl; destruct (remove_bg ui); simpl;
    now repeat rewrite <- app_assoc.
Qed.

Lemma remove_background_rejects_non_image_witness :
  remove_background (demo_ext false) (demo_ui true "Hi") (PyOther "dict") empty_world
  = (shown [Subheader Sidebar "3. Remove Background";
            Widget Sidebar "Remove Background";
            Error MainArea "Invalid image format after cropping."] empty_world,
     Raise StopException).
Proof.
  apply (remove_background_rejects_non_image (demo_ext false) (demo_ui true "Hi")
           (PyOther "dict") empty_world).
  reflexivity.
Defined.

(** ** The text stage *)

Lemma visible_negb_forallb s : visible s = negb (forallb py_isspace s).
Proof.
  unfold visible.
  induction s as [ | c s IH]; simpl; [ reflexivity | ].
  rewrite IH. now destruct (py_isspace c).
Qed.

Lemma lstrip_head s c rest : lstrip s = c :: rest -> py_isspace c = false.
Proof.
  induction s as [ | d s IH]; simpl; [ discriminate | ].
  destruct (py_isspace d) eqn:Hd; [ exact IH | ].
  intros H. inversion H. now subst.
Qed.

Lemma lstrip_nil s : lstrip s = [] -> forallb py_isspace s = true.
Proof.
  induction s as [ | d s IH]; simpl; [ reflexivity | ].
  destruct (py_isspace d); [ exact IH | discriminate ].
Qed.

Lemma forallb_rev {A} (f : A -> bool) l : forallb f (rev l) = forallb f l.
Proof.
  induction l as [ | x l IH]; simpl; [ reflexivity | ].
  rewrite forallb_app, IH. simpl. rewrite andb_true_r. apply andb_comm.
Qed.

Lemma strip_nil s : strip s = [] -> forallb py_isspace s = true.
Proof.
  unfold strip, rstrip. intros H.
  assert (H1 : lstrip (rev (lstrip s)) = []).
  { rewrite <- (rev_involutive (lstrip (rev (lstrip s)))). now rewrite H. }
  apply lstrip_nil in H1. rewrite forallb_rev in H1.
  destruct (lstrip s) as [ | c rest] eqn:Hl; [ now apply lstrip_nil | ].
  apply lstrip_head in Hl. simpl in H1. rewrite Hl in H1. discriminate.
Qed.

(** The guard [if text_input.strip():] holds exactly for the texts with a
    character that is not whitespace. *)
Lemma strip_truthy_visible s : str_truthy (strip s) = visible s.
Proof.
  rewrite visible_negb_forallb.
  destruct (strip s) as [ | c rest] eqn:Hs; simpl.
  - now rewrite (strip_nil _ Hs).
  - destruct (forallb py_isspace s) eqn:Hall; [ | reflexivity ].
    rewrite (strip_whitespace _ Hall) in Hs. discriminate.
Qed.

(** X6: a text with a character that is not whitespace is drawn, in the
    three fixed modes, once and untrimmed, horizontally centred at
    x = (image width - text width) // 2; the vertical position is
    image height - text height - 10 for Bottom, 10 for Top and
    (image height - text height) // 2 for Center.  The stage shows its six
    widgets and nothing else. *)
Theorem text_is_drawn_at_anchor
  (ext : Externals) (ui : Widgets) (im : Image) (w : World) :
  text_style_valid ui ->
  positioning_mode ui <> Custom ->
  visible (text_input ui) = true ->
  let font := get_font ext (text_size ui) in
  let '(x0, y0, x1, y1) := textbbox ext im (text_input ui) font in
  let '(img_w, img_h) := im_size im in
  let x := (img_w - (x1 - x0)) / 2 in
  let y := match positioning_mode ui with
           | Bottom => img_h - (y1 - y0) - 10
           | Top => 10
           | _ => (img_h - (y1 - y0)) / 2
           end in
  exists fill,
    fill_color (text_color ui) (text_opacity ui) = Ok fill
    /\ add_text_to_image ext ui (PyImage im) w
       = (shown text_stage_widgets w,
          Ok (PyImage (draw_text ext im (x, y) (text_input ui) font fill))).
Proof.
  intros Hvalid Hmode Hvis font.
  destruct (fill_color_valid ui Hvalid) as (r & g & b & Hfill).
  rewrite add_text_to_image_prefix, Hfill, strip_truthy_visible, Hvis.
  fold font. unfold text_extent.
  destruct (textbbox ext im (text_input ui) font) as [[[x0 y0] x1] y1].
  destruct (im_size im) as [iw ih].
  destruct (positioning_mode ui); try contradiction;
    eexists; split; reflexivity.
Qed.

Lemma text_is_drawn_at_anchor_witness :
  exists fill,
    fill_color (pystr_of_string "#FFFFFF") 100 = Ok fill
    /\ add_text_to_image (demo_ext false) (with_mode Top (demo_ui true " Hi "))
         (PyImage demo_image) empty_world
       = (shown text_stage_widgets empty_world,
          Ok (PyImage (draw_text (demo_ext false) demo_image ((2 - 40) / 2, 10)
                         (pystr_of_string " Hi ") (TrueType "arial.ttf" 40) fill))).
Proof.
  apply (text_is_drawn_at_anchor (demo_ext false) (with_mode Top (demo_ui true " Hi "))
           demo_image empty_world).
  - split; [ reflexivity | simpl; lia ].
  - discriminate.
  - reflexivity.
Defined.

(** X8: in Custom mode, when the preview call of the crop widget raises,
    a text that would be drawn is not: the stage shows its widgets, the
    warning and the preview, and ends with that exception. *)
Theorem custom_preview_failure_aborts
  (ext : Externals) (ui : Widgets) (im : Image) (w : World) (e : exn) :
  text_style_valid ui ->
  positioning_mode ui = Custom ->
  visible (text_input ui) = true ->
  (forall preview,
      st_cropper ext preview true (pystr_of_string "#FF0000") None "text_placement"
      = Raise e) ->
  exists preview,
    add_text_to_image ext ui (PyImage im) w
    = (shown (text_stage_widgets
              ++ [Warning MainArea "Custom text placement: adjust using preview below.";
                  Cropper (PyImage preview) "text_placement"]) w,
       Raise e).
Proof.
  intros Hvalid Hmode Hvis Hraise.
  destruct (fill_color_valid ui Hvalid) as (r & g & b & Hfill).
  rewrite add_text_to_image_prefix, Hfill, strip_truthy_visible, Hvis, Hmode.
  cbv zeta.
  destruct (text_extent _) as [tw th].
  destruct (im_size im) as [iw ih].
  rewrite Hraise. eexists. reflexivity.
Qed.

Lemma custom_preview_failure_aborts_witness :
  let ext := demo_ext_with (fun v key => if String.eqb key "cropper" then Ok v
                                         else Raise demo_type_error)
               (truetype (demo_ext false)) (fun q => q) in
  exists preview,
    add_text_to_image ext (with_mode Custom (demo_ui true "Hi"))
      (PyImage demo_image) empty_world
    = (shown (text_stage_widgets
              ++ [Warning MainArea "Custom text placement: adjust using preview below.";
                  Cropper (PyImage preview) "text_placement"]) empty_world,
       Raise demo_type_error).
Proof.
  intros ext.
  apply (custom_preview_failure_aborts ext (with_mode Custom (demo_ui true "Hi"))
           demo_image empty_world demo_type_error).
  - split; [ reflexivity | simpl; lia ].
  - reflexivity.
  - reflexivity.
  - intros preview. reflexivity.
Defined.

(** ** Colour strings that are not of the form #RRGGBB *)

Lemma int16_error s e : int16 s = Raise e -> e = ValueError.
Proof.
  unfold int16.
  match goal with
  | |- context [match ?t with pair _ _ => _ end] => destruct t as [negative s1]
  end.
  match goal with
  | |- context [scan_digits ?t 0 0 false] => generalize t
  end.
  intros s2.
  assert (core : match scan_digits s2 0 0 false with
                 | Some (v, S _, rest) =>
                     match skip_int_space rest with
                     | [] => Ok (if negative then - v else v)
                     | _ :: _ => Raise ValueError
                     end
                 | _ => Raise ValueError
                 end = Raise e -> e = ValueError).
  { destruct (scan_digits s2 0 0 false) as [[[v [ | n]] rest] | ];
      try (intros H; inversion H; reflexivity).
    destruct (skip_int_space rest); intros H; inversion H; reflexivity. }
  destruct s2 as [ | c r]; [ exact core | ].
  destruct c as [ | p]; [ exact core | ].
  repeat (first [ exact core
                | intros H; inversion H; reflexivity
                | destruct p as [p | p | ] ]).
Qed.

Lemma fill_color_short color opacity :
  (List.length color <= 5)%nat -> fill_color color opacity = Raise ValueError.
Proof.
  intros Hlen. unfold fill_color.
  destruct (int16 (slice color 1 3)) as [r | e] eqn:Hr; simpl;
    [ | now rewrite (int16_error _ _ Hr) ].
  destruct (int16 (slice color 3 5)) as [g | e] eqn:Hg; simpl;
    [ | now rewrite (int16_error _ _ Hg) ].
  unfold slice. rewrite (skipn_all2 color) by exact Hlen. reflexivity.
Qed.

(** X9: a colour string of five characters or fewer, such as the short
    form [#FFF], makes the text stage raise [ValueError] once its widgets
    are shown, whatever the text and whatever the image variable holds: the
    colour is parsed before the text is examined. *)
Theorem short_color_raises_ValueError
  (ext : Externals) (ui : Widgets) (v : pyval) (w : World) :
  (List.length (text_color ui) <= 5)%nat ->
  add_text_to_image ext ui v w = (shown text_stage_widgets w, Raise ValueError).
Proof.
  intros Hlen.
  now rewrite add_text_to_image_prefix, (fill_color_short _ _ Hlen).
Qed.

Lemma short_color_raises_ValueError_witness :
  let ui := mkWidgets None true [] Aspect_Free true [] 40
                      (pystr_of_string "#FFF") 100 Bottom true in
  add_text_to_image (demo_ext false) ui (PyImage demo_image) empty_world
  = (shown text_stage_widgets empty_world, Raise ValueError).
Proof.
  intros ui.
  apply (short_color_raises_ValueError (demo_ext false) ui (PyImage demo_image)
           empty_world).
  simpl. lia.
Defined.

(** X10: the colour parsing reads the characters at positions 1 to 6 only:
    the first character is not examined (it need not be [#]) and anything
    after the seventh is ignored. *)
Theorem fill_color_reads_positions_1_to_6
  (c c' : N) (body extra : pystr) (opacity : Z) :
  List.length body = 6%nat ->
  fill_color (c :: body ++ extra) opacity = fill_color (c' :: body) opacity.
Proof.
  intros Hlen.
  destruct body as [ | r1 [ | r2 [ | g1 [ | g2 [ | b1 [ | b2 [ | ? ?]]]]]]];
    try discriminate.
  reflexivity.
Qed.

Lemma fill_color_reads_positions_1_to_6_witness :
  fill_color (35%N :: pystr_of_string "1aF0c3" ++ pystr_of_string "80") 50
  = fill_color (120%N :: pystr_of_string "1aF0c3") 50.
Proof.
  apply (fill_color_reads_positions_1_to_6 35 120 (pystr_of_string "1aF0c3")
           (pystr_of_string "80") 50).
  reflexivity.
Defined.

(** ** Fonts *)

(** X11: when neither [arial.ttf] nor [DejaVuSans.ttf] can be loaded, no
    error surfaces: the text stage returns as usual, and the text is measured
    and drawn with the default font. *)
Theorem missing_fonts_fall_back_to_default
  (ext : Externals) (ui : Widgets) (im : Image) (w : World) :
  (forall name size, exists e, truetype ext name size = Raise e) ->
  text_style_valid ui ->
  positioning_mode ui <> Custom ->
  visible (text_input ui) = true ->
  get_font ext (text_size ui) = DefaultFont
  /\ exists position fill,
      add_text_to_image ext ui (PyImage im) w
      = (shown text_stage_widgets w,
         Ok (PyImage (draw_text ext im position (text_input ui) DefaultFont fill))).
Proof.
  intros Hfonts Hvalid Hmode Hvis.
  assert (Hfont : get_font ext (text_size ui) = DefaultFont).
  { unfold get_font.
    destruct (Hfonts "arial.ttf"%string (text_size ui)) as [e1 ->].
    now destruct (Hfonts "DejaVuSans.ttf"%string (text_size ui)) as [e2 ->]. }
  split; [ exact Hfont | ].
  destruct (fill_color_valid ui Hvalid) as (r & g & b & Hfill).
  rewrite add_text_to_image_prefix, Hfill, strip_truthy_visible, Hvis, Hfont.
  cbv zeta.
  destruct (text_extent _) as [tw th].
  destruct (im_size im) as [iw ih].
  destruct (positioning_mode ui); try contradiction;
    do 2 eexists; reflexivity.
Qed.

Lemma missing_fonts_fall_back_to_default_witness :
  let ext := demo_ext_with (fun v _ => Ok v) (fun _ _ => Raise demo_os_error)
                           (fun q => q) in
  get_font ext 40 = DefaultFont
  /\ exists position fill,
      add_text_to_image ext (demo_ui true "Hi") (PyImage demo_image) empty_world
      = (shown text_stage_widgets empty_world,
         Ok (PyImage (draw_text ext demo_image position (pystr_of_string "Hi")
                        DefaultFont fill))).
Proof.
  intros ext.
  apply (missing_fonts_fall_back_to_default ext (demo_ui true "Hi") demo_image
           empty_world).
  - intros name size. exists demo_os_error. reflexivity.
  - split; [ reflexivity | simpl; lia ].
  - discriminate.
  - reflexivity.
Defined.

(** ** The export loop, exactly *)

Ltac loop_step Hbig Hfit :=
  rewrite quality_loop_step; simpl Z.sub;
  match goal with
  | |- context [Z_le_gt_dec 20 ?q] =>
      destruct (Z_le_gt_dec 20 q) as [?Hq | ?Hq];
      [ try (exfalso; lia) | try (exfalso; lia) ]
  end;
  try match goal with
  | |- context [Z_le_gt_dec (webp_size ?ext ?im ?q) ?l] =>
      destruct (Z_le_gt_dec (webp_size ext im q) l) as [?Hle | ?Hgt];
      [ try (exfalso;
             assert (webp_size ext im q > size_limit)
               by (apply Hbig; simpl; tauto);
             unfold size_limit in *; lia)
      | try (exfalso; unfold size_limit in *; simpl in Hfit; lia) ]
  end.

(** X12: the loop stops at the first quality whose file fits.  If the
    files at the first n-1 qualities of 90, 80, ..., 20 exceed 100 KiB and,
    for n below 8, the file at the n-th fits, the export makes exactly the
    first n encodes and returns the file name; when no quality fits it makes
    all eight and still returns. *)
Theorem export_stops_at_first_fit
  (ext : Externals) (im : Image) (name_prefix : string) (w : World) (n : nat) :
  (1 <= n <= 8)%nat ->
  (forall q, In q (firstn (n - 1) quality_steps) ->
             webp_size ext (sticker_bitmap ext im) q > size_limit) ->
  ((n < 8)%nat ->
   webp_size ext (sticker_bitmap ext im) (nth (n - 1) quality_steps 0) <= size_limit) ->
  make_whatsapp_sticker ext (PyImage im) name_prefix w
  = (after_saves ext (sticker_bitmap ext im) (sticker_file_name ext name_prefix)
       (firstn n quality_steps) w,
     Ok (sticker_file_name ext name_prefix)).
Proof.
  intros Hn Hbig Hfit.
  rewrite make_whatsapp_sticker_eq.
  destruct n as [ | [ | [ | [ | [ | [ | [ | [ | [ | n]]]]]]]]]; try lia;
    simpl in Hbig; try specialize (Hfit ltac:(lia));
    repeat loop_step Hbig Hfit;
    rewrite ?after_saves_cons; reflexivity.
Qed.

Lemma export_stops_at_first_fit_witness :
  let ext := demo_ext_with (fun v _ => Ok v) (truetype (demo_ext false))
                           (fun q => 2000 * q) in
  make_whatsapp_sticker ext (PyImage demo_image) "xtickr_sticker" empty_world
  = (after_saves ext (sticker_bitmap ext demo_image)
       (sticker_file_name ext "xtickr_sticker") [90; 80; 70; 60; 50] empty_world,
     Ok (sticker_file_name ext "xtickr_sticker")).
Proof.
  intros ext.
  apply (export_stops_at_first_fit ext demo_image "xtickr_sticker" empty_world 5).
  - lia.
  - intros q Hq. simpl in Hq. unfold size_limit. simpl.
    repeat (destruct Hq as [<- | Hq]; [ lia | ]). contradiction.
  - intros _. unfold size_limit. simpl. lia.
Defined.

Lemma Attempts_shape size q qs :
  Attempts size q qs ->
  qs <> [] ->
  (size (last qs 0) <= size_limit \/ last qs 0 < 30)
  /\ Forall (fun q' => size q' > size_limit) (removelast qs).
Proof.
  induction 1 as [q Hq | q Hq Hs | q qs Hq Hs Hrest IH]; intros Hne.
  - contradiction.
  - simpl. split; [ now left | constructor ].
  - destruct qs as [ | q1 qs].
    + inversion Hrest; subst. simpl. split; [ right; lia | constructor ].
    + destruct (IH ltac:(discriminate)) as [Hlast Hall].
      split; [ exact Hlast | ].
      change (removelast (q :: q1 :: qs)) with (q :: removelast (q1 :: qs)).
      constructor; [ exact Hs | exact Hall ].
Qed.

Lemma lookup_after_saves_last ext im file_name qs w :
  qs <> [] ->
  lookup_file file_name (files (after_saves ext im file_name qs w))
  = Some (saved ext im (last qs 0)).
Proof.
  intros Hne. destruct (exists_last Hne) as (qs' & q & ->).
  rewrite lookup_after_saves. now rewrite last_last.
Qed.

(** X13: the file the export leaves on disk is the encoding at the highest
    of the qualities 90, 80, ..., 20 that fits in 100 KiB, if there is one:
    every higher quality was too large, and the file exceeds the limit only
    when it is the encoding at quality 20, that is when all eight do. *)
Theorem export_keeps_best_fitting_quality
  (ext : Externals) (im : Image) (name_prefix : string) (w : World) :
  let img := sticker_bitmap ext im in
  let file_name := sticker_file_name ext name_prefix in
  exists w' q,
    make_whatsapp_sticker ext (PyImage im) name_prefix w = (w', Ok file_name)
    /\ In q quality_steps
    /\ lookup_file file_name (files w') = Some (saved ext img q)
    /\ (forall q', In q' quality_steps -> q < q' -> webp_size ext img q' > size_limit)
    /\ (webp_size ext img q > size_limit -> q = 20).
Proof.
  intros img file_name.
  destruct (quality_loop_attempts ext img file_name 90 w) as (qs & Hqs & Hrun).
  destruct (Attempts_from_90 _ _ Hqs) as (n & Hn & Heq).
  assert (Hne : qs <> []).
  { subst qs. destruct n; [ lia | discriminate ]. }
  destruct (Attempts_shape _ _ _ Hqs Hne) as [Hlast Hall].
  rewrite Forall_forall in Hall.
  exists (after_saves ext img file_name qs w), (last qs 0).
  split.
  { rewrite make_whatsapp_sticker_eq. fold img file_name. now rewrite Hrun. }
  split; [ | split; [ now apply lookup_after_saves_last | ] ].
  - subst qs.
    destruct n as [ | [ | [ | [ | [ | [ | [ | [ | [ | n]]]]]]]]]; try lia;
      simpl; tauto.
  - subst qs.
    destruct n as [ | [ | [ | [ | [ | [ | [ | [ | [ | n]]]]]]]]]; try lia;
      simpl in *;
      (split;
       [ intros q' Hin Hlt;
         repeat (destruct Hin as [<- | Hin];
                 [ first [ lia | apply Hall; tauto ] | ]);
         contradiction
       | intros Hbig; unfold size_limit in *; lia ]).
Qed.

Lemma lookup_other_file other file_name (content : Z -> SavedFile) qs fs :
  other <> file_name ->
  lookup_file other (map (fun q => (file_name, content q)) qs ++ fs)
  = lookup_file other fs.
Proof.
  intros Hother. unfold lookup_file.
  induction qs as [ | q qs IH]; simpl; [ reflexivity | ].
  destruct (String.eqb_spec file_name other) as [Heq | _]; [ | exact IH ].
  now subst.
Qed.

(** X14: the export writes under one name only: every file of another
    name is as it was before the call, and what the call shows is the
    encodes into that name. *)
Theorem export_touches_one_file
  (ext : Externals) (im : Image) (name_prefix : string) (w : World) :
  let file_name := sticker_file_name ext name_prefix in
  exists w' qs,
    make_whatsapp_sticker ext (PyImage im) name_prefix w = (w', Ok file_name)
    /\ events w' = events w
         ++ map (fun q => Save file_name q (sticker_bitmap ext im)) qs
    /\ forall other, other <> file_name ->
         lookup_file other (files w') = lookup_file other (files w).
Proof.
  intros file_name.
  destruct (make_whatsapp_sticker_run ext im name_prefix w) as (n & Hn & Hrun).
  do 2 eexists. split; [ exact Hrun | ].
  split; [ reflexivity | ].
  intros other Hother. unfold after_saves. simpl.
  now apply lookup_other_file.
Qed.

(** ** Files are written by the export only *)

Lemma keeps_ret {A} (a : A) : keeps_files (ret a).
Proof. intros w. reflexivity. Qed.

Lemma keeps_raise {A} (e : exn) : keeps_files (@raise A e).
Proof. intros w. reflexivity. Qed.

Lemma keeps_lift {A} (r : result A) : keeps_files (lift r).
Proof. intros w. reflexivity. Qed.

Lemma keeps_emit ev : keeps_files (emit ev).
Proof. intros w. reflexivity. Qed.

Lemma keeps_bind {A B} (m : M A) (f : A -> M B) :
  keeps_files m -> (forall a, keeps_files (f a)) -> keeps_files (bind m f).
Proof.
  intros Hm Hf w. unfold bind. specialize (Hm w).
  destruct (m w) as [w1 [a | e]]; simpl in *; [ | exact Hm ].
  now rewrite Hf.
Qed.

Lemma keeps_widget_bind {A B} p label (v : A) (f : A -> M B) :
  keeps_files (f v) -> keeps_files (bind (widget p label v) f).
Proof.
  intros Hf w. unfold widget, bind, emit, ret. simpl.
  now rewrite Hf.
Qed.

Lemma keeps_try {A} (body : M A) (handler : exn -> M A) :
  keeps_files body -> (forall e, keeps_files (handler e)) ->
  keeps_files (try_except_Exception body handler).
Proof.
  intros Hb Hh w. unfold try_except_Exception. specialize (Hb w).
  destruct (body w) as [w1 [a | e]]; simpl in *; [ exact Hb | ].
  destruct (is_Exception e); simpl; [ | exact Hb ].
  now rewrite Hh.
Qed.

Ltac keeps :=
  repeat first
    [ apply keeps_ret
    | apply keeps_raise
    | apply keeps_lift
    | apply keeps_emit
    | apply keeps_widget_bind
    | apply keeps_try; [ | intros ? ]
    | apply keeps_bind; [ | intros ? ]
    | match goal with
      | |- keeps_files (match ?x with _ => _ end) => destruct x
      | |- keeps_files (if ?b then _ else _) => destruct b
      end
    | progress cbv zeta ].

Lemma keeps_upload_image ext ui : keeps_files (upload_image ext ui).
Proof. unfold upload_image, st_stop. keeps. Qed.

Lemma keeps_crop_image ext ui image : keeps_files (crop_image ext ui image).
Proof. unfold crop_image, st_stop. keeps. Qed.

Lemma keeps_remove_background ext ui image :
  keeps_files (remove_background ext ui image).
Proof. unfold remove_background, st_stop. keeps. Qed.

Lemma keeps_add_text_to_image ext ui image :
  keeps_files (add_text_to_image ext ui image).
Proof. unfold add_text_to_image. keeps. Qed.

Lemma keeps_show_image ext p v caption : keeps_files (show_image ext p v caption).
Proof. unfold show_image. keeps. Qed.

(** X15: a run in which the "Create Sticker" button is not clicked writes
    no file, however it ends: the upload, crop, background removal and text
    stages and the previews leave the files on disk as they are. *)
Theorem main_without_click_writes_nothing
  (ext : Externals) (ui : Widgets) (w : World) :
  create_sticker ui = false ->
  files (fst (main ext ui w)) = files w.
Proof.
  intros Hclick. revert w. change (keeps_files (main ext ui)).
  unfold main.
  apply keeps_bind; [ apply keeps_upload_image | intros image ].
  apply keeps_bind; [ apply keeps_crop_image | intros cropped_img ].
  apply keeps_bind; [ apply keeps_remove_background | intros bg_removed_img ].
  apply keeps_bind; [ apply keeps_show_image | intros _ ].
  apply keeps_bind; [ apply keeps_add_text_to_image | intros final_img ].
  apply keeps_bind; [ apply keeps_emit | intros _ ].
  apply keeps_bind; [ apply keeps_show_image | intros _ ].
  apply keeps_widget_bind. rewrite Hclick. apply keeps_ret.
Qed.

Lemma main_without_click_writes_nothing_witness :
  files (fst (main (demo_ext false)
                (mkWidgets (Some "upload.png"%string) true [] Aspect_Free false
                   (pystr_of_string "Hi") 40 (pystr_of_string "#FFFFFF") 100
                   Top false)
                empty_world))
  = files empty_world.
Proof.
  apply (main_without_click_writes_nothing (demo_ext false)
           (mkWidgets (Some "upload.png"%string) true [] Aspect_Free false
              (pystr_of_string "Hi") 40 (pystr_of_string "#FFFFFF") 100
              Top false)
           empty_world).
  reflexivity.
Defined.

(** ** The script as written *)

(** X16: the script binds the name [st_cropper] to the module
    [streamlit_cropper], so the call in the crop stage raises.  Every run of
    [main] then ends in the first two stages: with [st.stop()] when no file
    is uploaded, with the exception of [Image.open] when the upload cannot be
    read, and otherwise with the exception of the crop call, once the crop
    controls are shown.  No run returns normally and none writes a file. *)
Theorem main_as_written_ends_at_crop
  (ext : Externals) (ui : Widgets) (w : World) (e : exn) :
  (forall image realtime color aspect key,
      st_cropper ext image realtime color aspect key = Raise e) ->
  main ext ui w
  = match uploaded_file ui with
    | None =>
        (shown [Widget Sidebar "1. Upload an Image";
                Info MainArea "Please upload an image to begin."] w,
         Raise StopException)
    | Some f =>
        match Image_open ext f with
        | Raise e0 => (shown upload_events w, Raise e0)
        | Ok im0 => (shown (upload_events ++ crop_events (PyImage im0)) w, Raise e)
        end
    end
  /\ files (fst (main ext ui w)) = files w
  /\ exists e1, snd (main ext ui w) = Raise e1.
Proof.
  intros Hcall.
  assert (Hrun : main ext ui w
    = match uploaded_file ui with
      | None =>
          (shown [Widget Sidebar "1. Upload an Image";
                  Info MainArea "Please upload an image to begin."] w,
           Raise StopException)
      | Some f =>
          match Image_open ext f with
          | Raise e0 => (shown upload_events w, Raise e0)
          | Ok im0 => (shown (upload_events ++ crop_events (PyImage im0)) w, Raise e)
          end
      end).
  { unfold main, upload_image, crop_image, widget, bind, emit, ret, lift,
      st_stop, raise, shown.
    simpl. destruct (uploaded_file ui) as [f | ]; simpl.
    - destruct (Image_open ext f) as [im0 | e0]; simpl; [ | reflexivity ].
      rewrite Hcall. simpl. now repeat rewrite <- app_assoc.
    - now repeat rewrite <- app_assoc. }
  split; [ exact Hrun | ].
  rewrite Hrun.
  destruct (uploaded_file ui) as [f | ];
    [ destruct (Image_open ext f) as [im0 | e0] | ];
    (split; [ reflexivity | eexists; reflexivity ]).
Qed.

Lemma main_as_written_ends_at_crop_witness :
  main script_ext (demo_ui true "Hi") empty_world
  = (shown (upload_events ++ crop_events (PyImage demo_image)) empty_world,
     Raise demo_type_error)
  /\ files (fst (main script_ext (demo_ui true "Hi") empty_world)) = files empty_world
  /\ exists e1, snd (main script_ext (demo_ui true "Hi") empty_world) = Raise e1.
Proof.
  apply (main_as_written_ends_at_crop script_ext (demo_ui true "Hi") empty_world
           demo_type_error).
  intros image realtime color aspect key. reflexivity.
Defined.

(** ** A signed channel *)

Lemma int16_signed_table :
  forallb (fun d =>
    result_Z_eqb (int16 [45%N; fst d]) (Ok (- snd d))
    && result_Z_eqb (int16 [43%N; fst d]) (Ok (snd d)))%bool
    hex_digits = true.
Proof. vm_compute. reflexivity. Qed.

(** X17: the channels are not checked to be two digits: [int(..., 16)]
    accepts a sign, so a colour string whose red field is [-] and a digit
    yields a negative red value, and one whose red field is [+] and a digit
    yields the value of that digit. *)
Theorem signed_channel_is_accepted
  (h d g1 g2 b1 b2 : N) (v vg1 vg2 vb1 vb2 : Z) (opacity : Z) :
  HexDigit d v ->
  HexDigit g1 vg1 -> HexDigit g2 vg2 ->
  HexDigit b1 vb1 -> HexDigit b2 vb2 ->
  0 <= opacity <= 100 ->
  fill_color [h; 45%N; d; g1; g2; b1; b2] opacity
  = Ok (- v, 16 * vg1 + vg2, 16 * vb1 + vb2, 255 * opacity / 100)
  /\ fill_color [h; 43%N; d; g1; g2; b1; b2] opacity
     = Ok (v, 16 * vg1 + vg2, 16 * vb1 + vb2, 255 * opacity / 100).
Proof.
  intros Hd Hg1 Hg2 Hb1 Hb2 Ho.
  pose proof int16_signed_table as T. rewrite forallb_forall in T.
  specialize (T _ Hd). apply andb_prop in T. destruct T as [Tneg Tpos].
  apply result_Z_eqb_eq in Tneg, Tpos. simpl fst in *. simpl snd in *.
  unfold fill_color, slice. simpl firstn.
  rewrite Tneg, Tpos. simpl bind_result.
  rewrite (int16_pair _ _ _ _ Hg1 Hg2). simpl bind_result.
  rewrite (int16_pair _ _ _ _ Hb1 Hb2). simpl bind_result.
  rewrite (opacity_to_255_floor _ Ho). split; reflexivity.
Qed.

Lemma signed_channel_is_accepted_witness :
  fill_color (pystr_of_string "#-f0000") 100 = Ok (- 15, 16 * 0 + 0, 16 * 0 + 0, 255 * 100 / 100)
  /\ fill_color (pystr_of_string "#+f0000") 100
     = Ok (15, 16 * 0 + 0, 16 * 0 + 0, 255 * 100 / 100).
Proof.
  apply (signed_channel_is_accepted 35 102 48 48 48 48 15 0 0 0 0 100);
    try (unfold HexDigit; simpl; tauto); lia.
Defined.
